(** * ts-smart-mocker: the response cache, the mock registry and smartFetch

    A shallow embedding of [ApiMocker] (api-mocker.ts) and of the persistence
    adapter (storage.ts), with the properties of the mock-resolution engine
    stated over it.

    Conventions of the embedding.
    - A JavaScript string is a [string]; one character stands for one UTF-16
      code unit (so [charCodeAt] is the character's code).
    - A JavaScript number is a [Z]: the numbers the engine handles are status
      codes, delays in milliseconds and 32-bit hashes.
    - A [Map<string, V>] and a [Record<string, V>] are a [gmap string V].
    - An awaited promise is the completion it settles to; a method of a
      response object is the completion its call gives.
    - The outside world (the file behind storage.ts, the network behind
      [fetch], the clock) is an explicit [World], threaded with the instance
      through every operation; every use of a capability is logged in the
      world's [trace]. *)

From Stdlib Require Import ZArith String Ascii List Bool DecimalString.
From stdpp Require Import gmap strings list fin_maps.

Local Open Scope string_scope.
Local Open Scope Z_scope.

(* ===================================================================== *)
(** ** JavaScript values *)
(* ===================================================================== *)

#[local] Set Warnings "-register-all".
Inductive JsValue : Type :=
| JsUndefined
| JsNull
| JsBool (b : bool)
| JsNumber (n : Z)
| JsString (s : string)
| JsArray (items : list JsValue)
| JsObject (props : list (string * JsValue)).

#[local] Set Warnings "register-all".

(** ToBoolean, as used by [||], [if] and [?:]. *)
Definition truthy (v : JsValue) : bool :=
  match v with
  | JsUndefined | JsNull => false
  | JsBool b => b
  | JsNumber n => negb (n =? 0)
  | JsString s => negb (String.eqb s EmptyString)
  | JsArray _ | JsObject _ => true
  end.

(** [a || b] *)
Definition js_or (a b : JsValue) : JsValue := if truthy a then a else b.

(** An instance of [Error]: what [error.name], [error.message] and
    [error.stack] read. *)
Record ErrorObj := {
  err_name : string;
  err_message : string;
  err_stack : JsValue
}.

(** What a [throw] or a rejected promise carries: an [Error] instance, or
    any other value. *)
Inductive Exn :=
| ExnError (e : ErrorObj)
| ExnValue (v : JsValue).

Inductive Completion (A : Type) :=
| Normal (a : A)
| Abrupt (x : Exn).
Arguments Normal {A} a.
Arguments Abrupt {A} x.

(** The part of the runtime the engine calls and this file does not define. *)
Record Host := {
  (** [JSON.stringify(v)] *)
  JSON_stringify : JsValue -> string;
  (** the entries of [new Headers(init)], in [forEach] order, each name
      once; the constructor throws on an invalid name or value *)
  new_Headers : list (string * string) -> Completion (list (string * string));
  (** [new Error(message).stack] *)
  Error_stack : string -> JsValue
}.

(* ===================================================================== *)
(** ** hashCode and the storage key *)
(* ===================================================================== *)

(** ToInt32: the value of a number as a signed 32-bit integer. *)
Definition to_int32 (z : Z) : Z := (z + 2 ^ 31) mod 2 ^ 32 - 2 ^ 31.

Definition charCode (c : ascii) : Z := Z.of_N (N_of_ascii c).

(** The body of the [for] loop, from index [i] on: [str] is the rest of the
    string. *)
Fixpoint hashCode_loop (str : string) (hash : Z) : Z :=
  match str with
  | EmptyString => hash
  | String c rest =>
      let char := charCode c in
      let hash := (to_int32 (Z.shiftl (to_int32 hash) 5) - hash) + char in
      let hash := Z.land (to_int32 hash) (to_int32 hash) in
      hashCode_loop rest hash
  end.

Definition hashCode (str : string) : Z :=
  let hash := 0 in
  if (Z.of_nat (String.length str) =? 0) then hash
  else hashCode_loop str hash.

(** [`${n}`] for an integer [n]. *)
Definition number_to_string (n : Z) : string :=
  NilZero.string_of_int (Z.to_int n).

(** [`${url}_${method}_${hashCode(JSON.stringify(requestBody || {}))}`] *)
Definition storage_key (host : Host) (url method : string) (requestBody : JsValue) : string :=
  url +:+ "_" +:+ method +:+ "_" +:+
  number_to_string (hashCode (JSON_stringify host (js_or requestBody (JsObject [])))).

(* ===================================================================== *)
(** ** types.ts *)
(* ===================================================================== *)

Module MockRequestShape.
Record t := { url : string; method : string; body : JsValue }.
End MockRequestShape.

Module MockConfig.
Record t := {
  endpoint : string;
  method : string;
  response : JsValue;
  delay : option Z;
  request : option MockRequestShape.t
}.
End MockConfig.

Module StoredRequest.
Record t := {
  url : string;
  method : string;
  body : JsValue;
  headers : option (gmap string string)
}.
End StoredRequest.

Module StoredResponse.
Record t := {
  response : JsValue;
  timestamp : string;
  headers : option (gmap string string);
  request : StoredRequest.t
}.
End StoredResponse.

(** What [clone()] of a [MockResponse] returns: the host's copy of the live
    response, or the object with a single [json] method built in the
    [catch] block. *)
Inductive Cloned :=
| HostCopy
| JsonOnly (json : Completion JsValue).

Module MockResponse.
Record t := {
  json : Completion JsValue;
  headers : option (gmap string string);
  ok : bool;
  status : Z;
  statusText : string;
  clone : Completion Cloned;
  text : Completion string
}.
End MockResponse.

(** [this.options] once the constructor has filled every field. *)
Record ApiMockerOptions := {
  storeRealResponses : bool;
  storeErrorResponses : bool;
  defaultDelay : Z;
  opt_isMocking : bool
}.

(** The options object passed to the constructor: every field optional. *)
Module CtorOptions.
Record t := {
  storeRealResponses : option bool;
  storeErrorResponses : option bool;
  defaultDelay : option Z;
  isMocking : option bool
}.
End CtorOptions.

(* ===================================================================== *)
(** ** The request and the live response (node-fetch) *)
(* ===================================================================== *)

Inductive RequestInfo :=
| InputString (url : string)
| InputRequest (url : string).

Module RequestInit.
Record t := {
  method : option string;
  body : JsValue;
  headers : option (list (string * string))
}.
End RequestInit.

(** The [Response] that [fetch] resolves to. [json] is the completion of the
    first read of the body; [text] and [clone] are the completions of these
    methods when they are called on the response afterwards. [headers] are
    the entries in [forEach] order, each name once. *)
Module Response.
Record t := {
  ok : bool;
  status : Z;
  statusText : string;
  headers : list (string * string);
  json : Completion JsValue;
  text : Completion string;
  clone : Completion unit
}.
End Response.

(* ===================================================================== *)
(** ** The instance and the world *)
(* ===================================================================== *)

Record MockerState := {
  isMocking : bool;
  mocks : list MockConfig.t;
  storedResponses : gmap string StoredResponse.t
}.

Record ApiMocker := {
  options : ApiMockerOptions;
  state : MockerState
}.

(** A JSON value that is not an object and has no entries of its own:
    [null], a boolean, a number, the empty string, the empty array. *)
Inductive Entryless :=
| JsonNull
| JsonBool (b : bool)
| JsonNumber (n : Z)
| JsonEmptyString
| JsonEmptyArray.

(** The file [responses.json]: absent, not parsable as JSON, holding the
    serialisation of a mapping from keys to records, or holding the JSON
    text of a value without entries. (A file some of whose entries are not
    records is outside the model: line 109 takes every value
    [as StoredResponse].) *)
Inductive Disk :=
| NoFile
| Unparsable
| Document (m : gmap string StoredResponse.t)
| EntrylessDocument (v : Entryless).

(** What [JSON.parse] gives [loadResponses] to return: a mapping, or a
    value without entries. *)
Inductive Loaded :=
| Mapping (m : gmap string StoredResponse.t)
| NotMapping (v : Entryless).

(** Uses of the capabilities, latest first. *)
Inductive Event :=
| EvFetch (url : string) (init : option RequestInit.t)
| EvLoad
| EvSave (m : gmap string StoredResponse.t)
| EvClear.

Record World := {
  disk : Disk;
  (** [Some e]: [fs.writeFile] rejects with [e] and leaves the file alone *)
  write_failure : option ErrorObj;
  (** what [fetch(url, init)] settles to *)
  network : string -> option RequestInit.t -> Completion Response.t;
  (** [new Date().toISOString()] *)
  clock : string;
  trace : list Event
}.

Record Sys := {
  mocker : ApiMocker;
  world : World
}.

(* ===================================================================== *)
(** ** Asynchronous code as state passing with exceptions *)
(* ===================================================================== *)

Definition M (A : Type) : Type := Sys -> Completion A * Sys.

Definition ret {A} (a : A) : M A := fun s => (Normal a, s).

Definition throw {A} (x : Exn) : M A := fun s => (Abrupt x, s).

Definition bind {A B} (c : M A) (k : A -> M B) : M B :=
  fun s =>
    match c s with
    | (Normal a, s') => k a s'
    | (Abrupt x, s') => (Abrupt x, s')
    end.

Notation "'let*' x ':=' c 'in' k" := (bind c (fun x => k))
  (at level 10, x name, c at level 100, k at level 200).
Notation "c1 ';;' c2" := (bind c1 (fun _ => c2))
  (at level 100, c2 at level 200, right associativity).

(** [await p] for a promise that has settled to [c]. *)
Definition await {A} (c : Completion A) : M A := fun s => (c, s).

(** [try { body } catch (error) { handler }] *)
Definition try_catch {A} (body : M A) (handler : Exn -> M A) : M A :=
  fun s =>
    match body s with
    | (Normal a, s') => (Normal a, s')
    | (Abrupt error, s') => handler error s'
    end.

Definition get_mocker : M ApiMocker := fun s => (Normal (mocker s), s).
Definition get_world : M World := fun s => (Normal (world s), s).
Definition set_mocker (m : ApiMocker) : M unit :=
  fun s => (Normal tt, {| mocker := m; world := world s |}).
Definition set_world (w : World) : M unit :=
  fun s => (Normal tt, {| mocker := mocker s; world := w |}).

Definition log (e : Event) : M unit :=
  let* w := get_world in
  set_world {| disk := disk w; write_failure := write_failure w;
               network := network w; clock := clock w;
               trace := e :: trace w |}.

(* ===================================================================== *)
(** ** storage.ts *)
(* ===================================================================== *)

(** [fs.writeFile(STORAGE_FILE, text)], where [text] serialises [m]. *)
Definition writeFile (m : gmap string StoredResponse.t) : M unit :=
  let* w := get_world in
  match write_failure w with
  | Some e => throw (ExnError e)
  | None =>
      set_world {| disk := Document m; write_failure := write_failure w;
                   network := network w; clock := clock w; trace := trace w |}
  end.

(** The [try] reads and parses the file and returns what [JSON.parse]
    gave, mapping or not; the [catch] returns [{}]. *)
Definition loadResponses : M Loaded :=
  log EvLoad ;;
  let* w := get_world in
  match disk w with
  | Document m => ret (Mapping m)
  | EntrylessDocument v => ret (NotMapping v)
  | NoFile | Unparsable => ret (Mapping ∅)
  end.

Definition saveResponses (responses : gmap string StoredResponse.t) : M unit :=
  log (EvSave responses) ;;
  writeFile responses.

(** Writes the text ['{}']. *)
Definition clearResponses : M unit :=
  log EvClear ;;
  writeFile ∅.

(* ===================================================================== *)
(** ** class ApiMocker *)
(* ===================================================================== *)

Definition with_state (m : ApiMocker) (st : MockerState) : ApiMocker :=
  {| options := options m; state := st |}.

Definition with_options (m : ApiMocker) (o : ApiMockerOptions) : ApiMocker :=
  {| options := o; state := state m |}.

(** [this.state.storedResponses = newMap] *)
Definition assign_storedResponses (newMap : gmap string StoredResponse.t) : M unit :=
  let* m := get_mocker in
  set_mocker (with_state m {| isMocking := isMocking (state m);
                              mocks := mocks (state m);
                              storedResponses := newMap |}).

(** [this.state.storedResponses.set(key, value)] *)
Definition storedResponses_set (key : string) (value : StoredResponse.t) : M unit :=
  let* m := get_mocker in
  assign_storedResponses (<[key := value]> (storedResponses (state m))).

(** The synchronous part of the constructor, from the [env] object on. The
    constructor also starts [loadStoredResponses] when storage is enabled,
    without awaiting it. *)
Definition new_ApiMocker (opts : CtorOptions.t) (env : ApiMockerOptions) : ApiMocker :=
  let o := {| storeRealResponses :=
                default (storeRealResponses env) (CtorOptions.storeRealResponses opts);
              storeErrorResponses :=
                default (storeErrorResponses env) (CtorOptions.storeErrorResponses opts);
              defaultDelay := default (defaultDelay env) (CtorOptions.defaultDelay opts);
              opt_isMocking := default (opt_isMocking env) (CtorOptions.isMocking opts) |} in
  {| options := o;
     state := {| isMocking := opt_isMocking o; mocks := [];
                 storedResponses := ∅ |} |}.

(** What [Object.entries(null)] throws. *)
Definition TypeError_entries_of_null : ErrorObj :=
  {| err_name := "TypeError";
     err_message := "Cannot convert undefined or null to object";
     err_stack := JsUndefined |}.

(** The [Map] filled from [Object.entries(responses)] (lines 107-110):
    [Object.entries] throws on [null] and gives no entry for a boolean, a
    number, the empty string or the empty array. *)
Definition map_of_entries (responses : Loaded) : Completion (gmap string StoredResponse.t) :=
  match responses with
  | Mapping m => Normal m
  | NotMapping JsonNull => Abrupt (ExnError TypeError_entries_of_null)
  | NotMapping (JsonBool _ | JsonNumber _ | JsonEmptyString | JsonEmptyArray) => Normal ∅
  end.

(** The [catch] logs the error with [console.error] and returns. *)
Definition loadStoredResponses : M unit :=
  try_catch
    (let* responses := loadResponses in
     let* newMap := await (map_of_entries responses) in
     assign_storedResponses newMap)
    (fun _ => ret tt).

Definition saveToStorage : M unit :=
  let* m := get_mocker in
  if storeRealResponses (options m) then
    let responsesObj := storedResponses (state m) in
    saveResponses responsesObj
  else ret tt.

Definition enableMocking (m : ApiMocker) : ApiMocker :=
  with_state m {| isMocking := true; mocks := mocks (state m);
                  storedResponses := storedResponses (state m) |}.

Definition disableMocking (m : ApiMocker) : ApiMocker :=
  with_state m {| isMocking := false; mocks := mocks (state m);
                  storedResponses := storedResponses (state m) |}.

(** [m.endpoint === config.endpoint && m.method === config.method] *)
Definition same_target (config m : MockConfig.t) : bool :=
  String.eqb (MockConfig.endpoint m) (MockConfig.endpoint config)
  && String.eqb (MockConfig.method m) (MockConfig.method config).

Definition addMock (config : MockConfig.t) (m : ApiMocker) : ApiMocker :=
  let exists_ := existsb (same_target config) (mocks (state m)) in
  if negb exists_ then
    let delay := default (defaultDelay (options m)) (MockConfig.delay config) in
    let entry := {| MockConfig.endpoint := MockConfig.endpoint config;
                    MockConfig.method := MockConfig.method config;
                    MockConfig.response := MockConfig.response config;
                    MockConfig.delay := Some delay;
                    MockConfig.request := MockConfig.request config |} in
    with_state m {| isMocking := isMocking (state m);
                    mocks := mocks (state m) ++ [entry];
                    storedResponses := storedResponses (state m) |}
  else m.

Definition getStoredResponse (host : Host) (url method : string) (requestBody : JsValue)
    (m : ApiMocker) : option StoredResponse.t :=
  let key := storage_key host url method requestBody in
  storedResponses (state m) !! key.

Definition clearStoredResponses : M unit :=
  assign_storedResponses ∅ ;;
  saveToStorage.

Definition set_storeErrorResponses (b : bool) (m : ApiMocker) : ApiMocker :=
  with_options m {| storeRealResponses := storeRealResponses (options m);
                    storeErrorResponses := b;
                    defaultDelay := defaultDelay (options m);
                    opt_isMocking := opt_isMocking (options m) |}.

Definition enableErrorResponseStorage : ApiMocker -> ApiMocker := set_storeErrorResponses true.
Definition disableErrorResponseStorage : ApiMocker -> ApiMocker := set_storeErrorResponses false.

Definition set_storeRealResponses (b : bool) (m : ApiMocker) : ApiMocker :=
  with_options m {| storeRealResponses := b;
                    storeErrorResponses := storeErrorResponses (options m);
                    defaultDelay := defaultDelay (options m);
                    opt_isMocking := opt_isMocking (options m) |}.

Definition enableRealResponseStorage : ApiMocker -> ApiMocker := set_storeRealResponses true.
Definition disableRealResponseStorage : ApiMocker -> ApiMocker := set_storeRealResponses false.

(** [headers.forEach((value, key) => { result[key] = value })] *)
Definition headersToRecord (headers : list (string * string)) : gmap string string :=
  foldl (fun result kv => <[fst kv := snd kv]> result) ∅ headers.

(* ===================================================================== *)
(** ** smartFetch *)
(* ===================================================================== *)

(** [typeof input === 'string' ? input : input.url] *)
Definition input_url (input : RequestInfo) : string :=
  match input with
  | InputString url => url
  | InputRequest url => url
  end.

(** [init?.method || 'GET'] *)
Definition init_method (init : option RequestInit.t) : string :=
  match init with
  | Some i =>
      match RequestInit.method i with
      | Some m => if String.eqb m EmptyString then "GET" else m
      | None => "GET"
      end
  | None => "GET"
  end.

(** [init?.body] *)
Definition init_body (init : option RequestInit.t) : JsValue :=
  match init with
  | Some i => RequestInit.body i
  | None => JsUndefined
  end.

(** [init?.headers ? this.headersToRecord(new Headers(init.headers)) : undefined] *)
Definition init_headers_record (host : Host) (init : option RequestInit.t)
    : M (option (gmap string string)) :=
  match init with
  | Some i =>
      match RequestInit.headers i with
      | Some h =>
          let* entries := await (new_Headers host h) in
          ret (Some (headersToRecord entries))
      | None => ret None
      end
  | None => ret None
  end.

(** [fetchWithAgent(input, init)]: one use of the live-call capability. *)
Definition fetchWithAgent (input : RequestInfo) (init : option RequestInit.t) : M Response.t :=
  let urlStr := input_url input in
  log (EvFetch urlStr init) ;;
  let* w := get_world in
  await (network w urlStr init).

(** [new Error(message)] *)
Definition new_Error (host : Host) (message : string) : ErrorObj :=
  {| err_name := "Error"; err_message := message; err_stack := Error_stack host message |}.

(** What reading the block-scoped [const response] gives inside a closure:
    the binding is initialised only once line 262 has run. *)
Definition ReferenceError_response : ErrorObj :=
  {| err_name := "ReferenceError";
     err_message := "Cannot access 'response' before initialization";
     err_stack := JsUndefined |}.

(** [() => response.clone()], called when the binding [response] holds
    [binding]. *)
Definition call_response_clone (binding : option Response.t) : Completion Cloned :=
  match binding with
  | None => Abrupt (ExnError ReferenceError_response)
  | Some response =>
      match Response.clone response with
      | Normal _ => Normal HostCopy
      | Abrupt x => Abrupt x
      end
  end.

(** [error instanceof Error ? error.message : 'Unknown error'] *)
Definition error_message (error : Exn) : string :=
  match error with
  | ExnError e => err_message e
  | ExnValue _ => "Unknown error"
  end.

(** [error instanceof Error ? error.name : 'Error'] *)
Definition error_name (error : Exn) : string :=
  match error with
  | ExnError e => err_name e
  | ExnValue _ => "Error"
  end.

(** [error instanceof Error ? error.stack : null] *)
Definition error_stack (error : Exn) : JsValue :=
  match error with
  | ExnError e => err_stack e
  | ExnValue _ => JsNull
  end.

(** The object literal [{ error: {message, name, stack}, data: null,
    success: false }] of the [catch] block. *)
Definition failure_payload (error : Exn) : JsValue :=
  JsObject [
    ("error", JsObject [("message", JsString (error_message error));
                        ("name", JsString (error_name error));
                        ("stack", error_stack error)]);
    ("data", JsNull);
    ("success", JsBool false)].

(** The object literal [{ data, error: null, success: true }]. *)
Definition success_payload (data : JsValue) : JsValue :=
  JsObject [("data", data); ("error", JsNull); ("success", JsBool true)].

(** [error instanceof Error && error.name === 'TypeError' ? 0 : 500] *)
Definition failure_status (error : Exn) : Z :=
  match error with
  | ExnError e => if String.eqb (err_name e) "TypeError" then 0 else 500
  | ExnValue _ => 500
  end.

(** The object thrown at the end of the [catch] block. *)
Definition failure_view (error : Exn) : MockResponse.t :=
  {| MockResponse.json := Normal (failure_payload error);
     MockResponse.headers := Some ∅;
     MockResponse.ok := false;
     MockResponse.status := failure_status error;
     MockResponse.statusText := error_message error;
     MockResponse.clone := Normal (JsonOnly (Normal (failure_payload error)));
     MockResponse.text := Normal (error_message error) |}.

(** The object returned on a cache hit (lines 249-257). The closure of
    [clone] reads the binding [response], which this path never
    initialises. *)
Definition stored_view (host : Host) (storedResponse : StoredResponse.t) : MockResponse.t :=
  let response : option Response.t := None in
  {| MockResponse.json := Normal (StoredResponse.response storedResponse);
     MockResponse.headers := StoredResponse.headers storedResponse;
     MockResponse.ok := true;
     MockResponse.status := 200;
     MockResponse.statusText := "OK";
     MockResponse.clone := call_response_clone response;
     MockResponse.text :=
       Normal (JSON_stringify host (StoredResponse.response storedResponse)) |}.

(** The object returned after a live call (lines 296-304). *)
Definition live_view (response : Response.t) (data : JsValue) : MockResponse.t :=
  {| MockResponse.json := Normal data;
     MockResponse.headers := Some (headersToRecord (Response.headers response));
     MockResponse.ok := Response.ok response;
     MockResponse.status := Response.status response;
     MockResponse.statusText := Response.statusText response;
     MockResponse.clone := call_response_clone (Some response);
     MockResponse.text := Response.text response |}.

(** The [request] field of a record written by smartFetch. *)
Definition stored_request (host : Host) (url method : string) (requestBody : JsValue)
    (init : option RequestInit.t) : M StoredRequest.t :=
  let* headers := init_headers_record host init in
  ret {| StoredRequest.url := url;
         StoredRequest.method := method;
         StoredRequest.body := requestBody;
         StoredRequest.headers := headers |}.

(** The [try] block. *)
Definition smartFetch_try (host : Host) (input : RequestInfo) (init : option RequestInit.t)
    (url method : string) (requestBody : JsValue) : M MockResponse.t :=
  let* this := get_mocker in
  (* 1. If mocking is enabled, try to retrieve stored response *)
  match (if isMocking (state this)
         then getStoredResponse host url method requestBody this
         else None) with
  | Some storedResponse => ret (stored_view host storedResponse)
  | None =>
      (* 2. If not mocking or no stored response, make real API call *)
      let* response := fetchWithAgent input init in
      if negb (Response.ok response) then
        let errorData :=
          match Response.json response with
          | Normal v => v
          | Abrupt _ => JsObject []
          end in
        throw (ExnError (new_Error host
          ("HTTP error! status: " +:+ number_to_string (Response.status response)
           +:+ ", " +:+ Response.statusText response
           +:+ ", data: " +:+ JSON_stringify host errorData)))
      else
        let* data := await (Response.json response) in
        (* 3. If store real responses is enabled, save the response *)
        let* this := get_mocker in
        (if storeRealResponses (options this) then
           let key := storage_key host url method requestBody in
           let* w := get_world in
           let* request := stored_request host url method requestBody init in
           storedResponses_set key
             {| StoredResponse.response := success_payload data;
                StoredResponse.timestamp := clock w;
                StoredResponse.headers := Some (headersToRecord (Response.headers response));
                StoredResponse.request := request |} ;;
           saveToStorage
         else ret tt) ;;
        ret (live_view response data)
  end.

(** The [catch] block; its normal completion is the value it throws. *)
Definition smartFetch_catch (host : Host) (init : option RequestInit.t)
    (url method : string) (requestBody : JsValue) (error : Exn) : M MockResponse.t :=
  let* this := get_mocker in
  (if storeRealResponses (options this) && storeErrorResponses (options this) then
     let key := storage_key host url method requestBody in
     let* w := get_world in
     let* request := stored_request host url method requestBody init in
     storedResponses_set key
       {| StoredResponse.response := failure_payload error;
          StoredResponse.timestamp := clock w;
          StoredResponse.headers := Some ∅;
          StoredResponse.request := request |} ;;
     saveToStorage
   else ret tt) ;;
  ret (failure_view error).

(** How the promise of smartFetch settles: fulfilled with a response,
    rejected with the response-shaped failure of the [catch] block, or
    rejected with what the [catch] block itself failed with. *)
Inductive FetchResult :=
| Fulfilled (r : MockResponse.t)
| RejectedView (r : MockResponse.t)
| RejectedRaw (x : Exn).

Definition smartFetch (host : Host) (input : RequestInfo) (init : option RequestInit.t)
    (s : Sys) : FetchResult * Sys :=
  let url := input_url input in
  let method := init_method init in
  let requestBody := init_body init in
  match smartFetch_try host input init url method requestBody s with
  | (Normal r, s') => (Fulfilled r, s')
  | (Abrupt error, s') =>
      match smartFetch_catch host init url method requestBody error s' with
      | (Normal view, s'') => (RejectedView view, s'')
      | (Abrupt x, s'') => (RejectedRaw x, s'')
      end
  end.

(** The condition of lines 246-248: the record served without a live call,
    if any. *)
Definition cache_hit (host : Host) (input : RequestInfo) (init : option RequestInit.t)
    (m : ApiMocker) : option StoredResponse.t :=
  if isMocking (state m)
  then getStoredResponse host (input_url input) (init_method init) (init_body init) m
  else None.

(** The number of uses of the live-call capability in a trace. *)
Definition live_calls (t : list Event) : nat :=
  List.length (List.filter (fun e => match e with EvFetch _ _ => true | _ => false end) t).

(** The world after one more logged event. *)
Definition logged (e : Event) (s : Sys) : Sys :=
  {| mocker := mocker s;
     world := {| disk := disk (world s); write_failure := write_failure (world s);
                 network := network (world s); clock := clock (world s);
                 trace := e :: trace (world s) |} |}.

(** The message of the [Error] thrown at line 267. *)
Definition http_error_message (host : Host) (response : Response.t) : string :=
  "HTTP error! status: " +:+ number_to_string (Response.status response)
  +:+ ", " +:+ Response.statusText response
  +:+ ", data: " +:+ JSON_stringify host
        (match Response.json response with Normal v => v | Abrupt _ => JsObject [] end).

(** The three ways a live call fails, with the error the [catch] block
    receives: [fetch] rejects; the response has a non-success status; the
    body of a success response does not parse. *)
Inductive live_failure (host : Host) (w : World) (input : RequestInfo)
    (init : option RequestInit.t) : Exn -> Prop :=
| TransportFailure x :
    network w (input_url input) init = Abrupt x ->
    live_failure host w input init x
| HttpStatusFailure response :
    network w (input_url input) init = Normal response ->
    Response.ok response = false ->
    live_failure host w input init
      (ExnError (new_Error host (http_error_message host response)))
| SerializationFailure response x :
    network w (input_url input) init = Normal response ->
    Response.ok response = true ->
    Response.json response = Abrupt x ->
    live_failure host w input init x.

(** A live call that succeeds: a success status and a body that parses to
    [data]. *)
Definition live_success (w : World) (input : RequestInfo) (init : option RequestInit.t)
    (response : Response.t) (data : JsValue) : Prop :=
  network w (input_url input) init = Normal response
  /\ Response.ok response = true
  /\ Response.json response = Normal data.

(** [new Headers(init.headers)] does not throw: the headers are ones that
    [fetch], which builds the same object, accepts. *)
Definition headers_accepted (host : Host) (init : option RequestInit.t) : Prop :=
  match init with
  | Some i =>
      match RequestInit.headers i with
      | Some h => exists entries, new_Headers host h = Normal entries
      | None => True
      end
  | None => True
  end.

(** [new Headers(init.headers)] throws [x]. *)
Definition headers_rejected (host : Host) (init : option RequestInit.t) (x : Exn) : Prop :=
  match init with
  | Some i =>
      match RequestInit.headers i with
      | Some h => new_Headers host h = Abrupt x
      | None => False
      end
  | None => False
  end.

(** Storing a record (lines 312-331, or 277-292) fails with [x]: building
    the record throws [x] in [new Headers], or the record is built and put
    in the cache and the write of the file then rejects with [x]. *)
Definition store_failure (host : Host) (init : option RequestInit.t) (w : World) (x : Exn)
    : Prop :=
  headers_rejected host init x
  \/ (headers_accepted host init /\ exists e, write_failure w = Some e /\ x = ExnError e).

(** The instance with another cache. *)
Definition with_cache (cache : gmap string StoredResponse.t) (m : ApiMocker) : ApiMocker :=
  with_state m {| isMocking := isMocking (state m); mocks := mocks (state m);
                  storedResponses := cache |}.

(** The world after [saveResponses cache] was called on it, [ev] having
    been logged before: on a write failure the file is as it was. *)
Definition after_save (ev : Event) (cache : gmap string StoredResponse.t) (w : World)
    : World :=
  {| disk := match write_failure w with None => Document cache | Some _ => disk w end;
     write_failure := write_failure w; network := network w; clock := clock w;
     trace := EvSave cache :: ev :: trace w |}.

(** How [saveResponses] completes in a world. *)
Definition save_completion (w : World) : Completion unit :=
  match write_failure w with
  | None => Normal tt
  | Some e => Abrupt (ExnError e)
  end.

(** [error instanceof Error && error.name === 'TypeError'] *)
Definition is_TypeError (error : Exn) : bool :=
  match error with
  | ExnError e => String.eqb (err_name e) "TypeError"
  | ExnValue _ => false
  end.

(* ===================================================================== *)
(** ** A reference host and sample systems *)
(* ===================================================================== *)

Module Sample.

(** The double quote and the backslash. *)
Definition dquote : ascii := ascii_of_N 34.
Definition backslash : ascii := ascii_of_N 92.

Definition escape_char (c : ascii) : string :=
  if Ascii.eqb c dquote then String backslash (String c EmptyString)
  else if Ascii.eqb c backslash then String c (String c EmptyString)
  else String c EmptyString.

Fixpoint escape (s : string) : string :=
  match s with
  | EmptyString => EmptyString
  | String c rest => escape_char c +:+ escape rest
  end.

Definition quote (s : string) : string :=
  String dquote (escape s +:+ String dquote EmptyString).

Fixpoint join (sep : string) (l : list string) : string :=
  match l with
  | [] => EmptyString
  | [x] => x
  | x :: rest => x +:+ sep +:+ join sep rest
  end.

(** Compact JSON text of a value, in the manner of [JSON.stringify]:
    properties holding [undefined] are left out, [undefined] in an array
    prints as [null]. *)
Fixpoint stringify (v : JsValue) : string :=
  match v with
  | JsUndefined => "undefined"
  | JsNull => "null"
  | JsBool true => "true"
  | JsBool false => "false"
  | JsNumber n => number_to_string n
  | JsString s => quote s
  | JsArray items =>
      "[" +:+ join ","
        ((fix go (l : list JsValue) : list string :=
            match l with
            | [] => []
            | JsUndefined :: rest => "null" :: go rest
            | x :: rest => stringify x :: go rest
            end) items) +:+ "]"
  | JsObject props =>
      "{" +:+ join ","
        ((fix go (l : list (string * JsValue)) : list string :=
            match l with
            | [] => []
            | (_, JsUndefined) :: rest => go rest
            | (k, x) :: rest => (quote k +:+ ":" +:+ stringify x) :: go rest
            end) props) +:+ "}"
  end.

Definition host : Host :=
  {| JSON_stringify := stringify;
     new_Headers := fun h => Normal h;
     Error_stack := fun message => JsString ("Error: " +:+ message) |}.

Definition TypeError (message : string) : ErrorObj :=
  {| err_name := "TypeError"; err_message := message;
     err_stack := JsString ("TypeError: " +:+ message) |}.

(** A 200 response with body [{"a":1}]. *)
Definition response_a1 : Response.t :=
  {| Response.ok := true; Response.status := 200; Response.statusText := "OK";
     Response.headers := [("content-type", "application/json")];
     Response.json := Normal (JsObject [("a", JsNumber 1)]);
     Response.text := Abrupt (ExnError (TypeError "body used already"));
     Response.clone := Abrupt (ExnError (TypeError "body used already")) |}.

(** A 404 response with body [{"msg":"nope"}]. *)
Definition response_404 : Response.t :=
  {| Response.ok := false; Response.status := 404; Response.statusText := "Not Found";
     Response.headers := [("content-type", "application/json")];
     Response.json := Normal (JsObject [("msg", JsString "nope")]);
     Response.text := Abrupt (ExnError (TypeError "body used already"));
     Response.clone := Abrupt (ExnError (TypeError "body used already")) |}.

(** A network with one resource that exists and one that does not; any
    other URL is refused as invalid. *)
Definition net (url : string) (init : option RequestInit.t) : Completion Response.t :=
  if String.eqb url "https://x/y" then Normal response_a1
  else if String.eqb url "https://x/missing" then Normal response_404
  else Abrupt (ExnError (TypeError "Invalid URL")).

Definition world0 : World :=
  {| disk := NoFile; write_failure := None; network := net;
     clock := "2025-01-15T10:30:00.000Z"; trace := [] |}.

Definition env : ApiMockerOptions :=
  {| storeRealResponses := false; storeErrorResponses := false;
     defaultDelay := 1000; opt_isMocking := false |}.

Definition make (isMocking storeReal storeError : bool) : ApiMocker :=
  new_ApiMocker
    {| CtorOptions.storeRealResponses := Some storeReal;
       CtorOptions.storeErrorResponses := Some storeError;
       CtorOptions.defaultDelay := None;
       CtorOptions.isMocking := Some isMocking |} env.

Definition sys (isMocking storeReal storeError : bool) : Sys :=
  {| mocker := make isMocking storeReal storeError; world := world0 |}.

Definition GET : option RequestInit.t :=
  Some {| RequestInit.method := Some "GET"; RequestInit.body := JsUndefined;
          RequestInit.headers := None |}.

Definition xy : RequestInfo := InputString "https://x/y".
Definition missing : RequestInfo := InputString "https://x/missing".

(** The static mock of the ping scenario. *)
Definition ping : MockConfig.t :=
  {| MockConfig.endpoint := "/ping"; MockConfig.method := "GET";
     MockConfig.response := JsObject [("pong", JsBool true)];
     MockConfig.delay := Some 50; MockConfig.request := None |}.

Definition ping_other : MockConfig.t :=
  {| MockConfig.endpoint := "/ping"; MockConfig.method := "GET";
     MockConfig.response := JsObject [("pong", JsBool false)];
     MockConfig.delay := None; MockConfig.request := None |}.

(** A mock for another endpoint. *)
Definition pong : MockConfig.t :=
  {| MockConfig.endpoint := "/pong"; MockConfig.method := "GET";
     MockConfig.response := JsObject [("ping", JsBool true)];
     MockConfig.delay := None; MockConfig.request := None |}.

(** The system after a live call to [xy] recorded with storage on, and the
same system with mocking then enabled. *)
Definition recorded : Sys := snd (smartFetch host xy GET (sys false true true)).

Definition replay : Sys :=
  {| mocker := enableMocking (mocker recorded); world := world recorded |}.

(** The same for the resource that answers 404: the failure is recorded
(error storage is on), then mocking is enabled. *)
Definition recorded_failure : Sys :=
  snd (smartFetch host missing GET (sys false true true)).

Definition replay_failure : Sys :=
  {| mocker := enableMocking (mocker recorded_failure); world := world recorded_failure |}.

(** The error caught when [missing] answers 404. *)
Definition error_404 : Exn :=
  ExnError (new_Error host (http_error_message host response_404)).

(** The records these two calls store. *)
Definition record_a1 : StoredResponse.t :=
  {| StoredResponse.response := success_payload (JsObject [("a", JsNumber 1)]);
     StoredResponse.timestamp := clock world0;
     StoredResponse.headers := Some (headersToRecord (Response.headers response_a1));
     StoredResponse.request :=
       {| StoredRequest.url := "https://x/y"; StoredRequest.method := "GET";
          StoredRequest.body := JsUndefined; StoredRequest.headers := None |} |}.

Definition record_404 : StoredResponse.t :=
  {| StoredResponse.response := failure_payload error_404;
     StoredResponse.timestamp := clock world0;
     StoredResponse.headers := Some ∅;
     StoredResponse.request :=
       {| StoredRequest.url := "https://x/missing"; StoredRequest.method := "GET";
          StoredRequest.body := JsUndefined; StoredRequest.headers := None |} |}.

(** A world whose file cannot be written. *)
Definition EACCES : ErrorObj :=
  {| err_name := "Error"; err_message := "EACCES: permission denied, open 'responses.json'";
     err_stack := JsUndefined |}.

Definition world_readonly : World :=
  {| disk := NoFile; write_failure := Some EACCES; network := net;
     clock := "2025-01-15T10:30:00.000Z"; trace := [] |}.

Definition sys_readonly (isMocking storeReal storeError : bool) : Sys :=
  {| mocker := make isMocking storeReal storeError; world := world_readonly |}.

(** A request with an empty string as body. *)
Definition GET_empty_body : option RequestInit.t :=
  Some {| RequestInit.method := Some "GET"; RequestInit.body := JsString EmptyString;
          RequestInit.headers := None |}.

(** What node-fetch rejects with when the host cannot be reached. *)
Definition FetchError (message : string) : ErrorObj :=
  {| err_name := "FetchError"; err_message := message;
     err_stack := JsString ("FetchError: " +:+ message) |}.

Definition connection_refused : ErrorObj :=
  FetchError "request to https://x/y failed, reason: connect ECONNREFUSED 127.0.0.1:443".

(** A network on which no host can be reached. *)
Definition net_down (url : string) (init : option RequestInit.t) : Completion Response.t :=
  Abrupt (ExnError connection_refused).

Definition world_down : World :=
  {| disk := NoFile; write_failure := None; network := net_down;
     clock := "2025-01-15T10:30:00.000Z"; trace := [] |}.

Definition sys_down (isMocking storeReal storeError : bool) : Sys :=
  {| mocker := make isMocking storeReal storeError; world := world_down |}.

(** [recorded] with the file then replaced by the text [null]. *)
Definition recorded_null_file : Sys :=
  {| mocker := mocker recorded;
     world := {| disk := EntrylessDocument JsonNull; write_failure := None;
                 network := net; clock := clock (world recorded);
                 trace := trace (world recorded) |} |}.

(** Mocking enabled, an empty cache, and the ping mock registered. *)
Definition ping_sys : Sys :=
  {| mocker := addMock ping (make true false false); world := world0 |}.

Definition ping_request : RequestInfo := InputString "/ping".

(** [recorded] with real-response storage then switched off: the cache and
the file both hold the record of [xy]. *)
Definition storage_switched_off : Sys :=
  {| mocker := disableRealResponseStorage (mocker recorded); world := world recorded |}.

End Sample.

(** The pair a registry entry is registered for. *)
Definition target (c : MockConfig.t) : string * string :=
  (MockConfig.endpoint c, MockConfig.method c).


(** The system once [enableMocking()] was called. *)
Definition mocking_enabled (s : Sys) : Sys :=
  {| mocker := enableMocking (mocker s); world := world s |}.

(** The file mirrors the cache. *)
Definition mirrored (s : Sys) : Prop :=
  disk (world s) = Document (storedResponses (state (mocker s))).

(** [addMock] called for each configuration of a list in turn. *)
Definition register_all (configs : list MockConfig.t) (m : ApiMocker) : ApiMocker :=
  foldl (fun m config => addMock config m) m configs.

(** [{ ...config, delay }] with [delay = config.delay ?? dflt]. *)
Definition registered_entry (dflt : Z) (config : MockConfig.t) : MockConfig.t :=
  {| MockConfig.endpoint := MockConfig.endpoint config;
     MockConfig.method := MockConfig.method config;
     MockConfig.response := MockConfig.response config;
     MockConfig.delay := Some (default dflt (MockConfig.delay config));
     MockConfig.request := MockConfig.request config |}.

(** The instance with another registry. *)
Definition with_mocks (ms : list MockConfig.t) (s : Sys) : Sys :=
  {| mocker := with_state (mocker s)
                 {| isMocking := isMocking (state (mocker s)); mocks := ms;
                    storedResponses := storedResponses (state (mocker s)) |};
     world := world s |}.

(* ===================================================================== *)
(** ** hashCode and the key *)
(* ===================================================================== *)

Example hashCode_empty_object : hashCode "{}" = 3938.
Proof. reflexivity. Qed.

Example hashCode_wraps :
  hashCode "The quick brown fox jumps over the lazy dog, twice over and over" = -247645974.
Proof. vm_compute. reflexivity. Qed.

Example storage_key_no_body :
  storage_key Sample.host "https://x/y" "GET" JsUndefined = "https://x/y_GET_3938".
Proof. vm_compute. reflexivity. Qed.

Lemma to_int32_range z : - 2 ^ 31 <= to_int32 z < 2 ^ 31.
Proof.
  unfold to_int32.
  pose proof (Z.mod_pos_bound (z + 2 ^ 31) (2 ^ 32) ltac:(lia)). lia.
Qed.

Lemma hashCode_loop_int32 str hash :
  - 2 ^ 31 <= hash < 2 ^ 31 -> - 2 ^ 31 <= hashCode_loop str hash < 2 ^ 31.
Proof.
  revert hash. induction str as [|c rest IH]; intros hash Hh; simpl; [exact Hh|].
  apply IH. rewrite Z.land_diag. apply to_int32_range.
Qed.

Lemma hashCode_int32 str : - 2 ^ 31 <= hashCode str < 2 ^ 31.
Proof.
  unfold hashCode. destruct (Z.of_nat (String.length str) =? 0); [lia|].
  apply hashCode_loop_int32. lia.
Qed.

(* ===================================================================== *)
(** ** The three paths of the [try] block *)
(* ===================================================================== *)

Section Paths.
Context (host : Host) (input : RequestInfo) (init : option RequestInit.t).

Let url := input_url input.
Let method := init_method init.
Let requestBody := init_body init.

Lemma try_cache_hit s storedResponse :
  cache_hit host input init (mocker s) = Some storedResponse ->
  smartFetch_try host input init url method requestBody s
  = (Normal (stored_view host storedResponse), s).
Proof.
  unfold cache_hit, smartFetch_try, bind, get_mocker, ret. simpl.
  fold url method requestBody. intros ->. reflexivity.
Qed.

Lemma try_live_failure s error :
  cache_hit host input init (mocker s) = None ->
  live_failure host (world s) input init error ->
  smartFetch_try host input init url method requestBody s
  = (Abrupt error, logged (EvFetch url init) s).
Proof.
  unfold cache_hit, smartFetch_try, bind, get_mocker. simpl.
  fold url method requestBody. intros ->.
  unfold fetchWithAgent, log, bind, get_world, set_world, await. simpl.
  fold url. intros [x Hx | response Hn Hok | response x Hn Hok Hj];
    fold url in Hn || fold url in Hx.
  - rewrite Hx. reflexivity.
  - rewrite Hn, Hok. reflexivity.
  - rewrite Hn, Hok. simpl. rewrite Hj. reflexivity.
Qed.

Lemma try_live_success_unstored s response data :
  cache_hit host input init (mocker s) = None ->
  live_success (world s) input init response data ->
  storeRealResponses (options (mocker s)) = false ->
  smartFetch_try host input init url method requestBody s
  = (Normal (live_view response data), logged (EvFetch url init) s).
Proof.
  unfold cache_hit, smartFetch_try, bind, get_mocker. simpl.
  fold url method requestBody. intros -> (Hn & Hok & Hj) Hstore.
  unfold fetchWithAgent, log, bind, get_world, set_world, await. simpl.
  fold url in Hn |- *. rewrite Hn, Hok. simpl. rewrite Hj, Hstore. reflexivity.
Qed.

End Paths.

(* ===================================================================== *)
(** ** Cache hits *)
(* ===================================================================== *)

Lemma cache_hit_mocking host input init m :
  isMocking (state m) = true ->
  cache_hit host input init m
  = getStoredResponse host (input_url input) (init_method init) (init_body init) m.
Proof. unfold cache_hit. intros ->. reflexivity. Qed.

Lemma smartFetch_cache_hit host input init s storedResponse :
  cache_hit host input init (mocker s) = Some storedResponse ->
  smartFetch host input init s = (Fulfilled (stored_view host storedResponse), s).
Proof.
  intros Hhit. unfold smartFetch.
  rewrite (try_cache_hit host input init s storedResponse Hhit). reflexivity.
Qed.

Example replay_holds_record :
  getStoredResponse Sample.host "https://x/y" "GET" JsUndefined (mocker Sample.replay)
  = Some Sample.record_a1.
Proof. vm_compute. reflexivity. Qed.

Example replay_failure_holds_record :
  getStoredResponse Sample.host "https://x/missing" "GET" JsUndefined
    (mocker Sample.replay_failure)
  = Some Sample.record_404.
Proof. vm_compute. reflexivity. Qed.

(** C1. Cache precedence: with mocking enabled and a record stored under the
    request's key, smartFetch is fulfilled, the instance and the world are
    left as they were (so the live-call capability is not used), and [json()]
    of the response is the [response] field of the stored record. *)
Theorem smartFetch_cache_precedence host input init s storedResponse :
  isMocking (state (mocker s)) = true ->
  getStoredResponse host (input_url input) (init_method init) (init_body init) (mocker s)
    = Some storedResponse ->
  exists r,
    smartFetch host input init s = (Fulfilled r, s)
    /\ MockResponse.json r = Normal (StoredResponse.response storedResponse)
    /\ live_calls (trace (world (snd (smartFetch host input init s))))
       = live_calls (trace (world s)).
Proof.
  intros Hm Hget.
  assert (Hhit : cache_hit host input init (mocker s) = Some storedResponse)
    by (rewrite cache_hit_mocking; assumption).
  exists (stored_view host storedResponse).
  rewrite (smartFetch_cache_hit _ _ _ _ _ Hhit). auto.
Qed.

Lemma smartFetch_cache_precedence_witness :
  exists r,
    smartFetch Sample.host Sample.xy Sample.GET Sample.replay = (Fulfilled r, Sample.replay)
    /\ MockResponse.json r = Normal (StoredResponse.response Sample.record_a1)
    /\ live_calls (trace (world (snd (smartFetch Sample.host Sample.xy Sample.GET Sample.replay))))
       = live_calls (trace (world Sample.replay)).
Proof.
  apply (smartFetch_cache_precedence Sample.host Sample.xy Sample.GET Sample.replay
           Sample.record_a1).
  - reflexivity.
  - vm_compute. reflexivity.
Defined.

(** C2, as the code has it. Every cache hit is reported as a success,
    whatever the stored record holds and whether error storage is enabled or
    not: the promise is fulfilled with [ok = true], status 200 and status
    text OK, and [json()] gives the stored payload unchanged, so a stored
    failure comes back as the object [{error, data: null, success: false}]
    inside a success. *)
Theorem smartFetch_cache_hit_reported_as_success host input init s storedResponse :
  isMocking (state (mocker s)) = true ->
  getStoredResponse host (input_url input) (init_method init) (init_body init) (mocker s)
    = Some storedResponse ->
  exists r,
    fst (smartFetch host input init s) = Fulfilled r
    /\ MockResponse.ok r = true
    /\ MockResponse.status r = 200
    /\ MockResponse.statusText r = "OK"
    /\ MockResponse.json r = Normal (StoredResponse.response storedResponse).
Proof.
  intros Hm Hget.
  assert (Hhit : cache_hit host input init (mocker s) = Some storedResponse)
    by (rewrite cache_hit_mocking; assumption).
  exists (stored_view host storedResponse).
  rewrite (smartFetch_cache_hit _ _ _ _ _ Hhit). simpl. auto.
Qed.

Lemma smartFetch_cache_hit_reported_as_success_witness :
  storeErrorResponses (options (mocker Sample.replay_failure)) = true
  /\ exists r,
    fst (smartFetch Sample.host Sample.missing Sample.GET Sample.replay_failure) = Fulfilled r
    /\ MockResponse.ok r = true
    /\ MockResponse.status r = 200
    /\ MockResponse.statusText r = "OK"
    /\ MockResponse.json r = Normal (failure_payload Sample.error_404).
Proof.
  split; [reflexivity|].
  apply (smartFetch_cache_hit_reported_as_success Sample.host Sample.missing Sample.GET
           Sample.replay_failure Sample.record_404).
  - reflexivity.
  - vm_compute. reflexivity.
Defined.

(** C2 fails as stated: error storage is enabled, mocking is enabled, the
    record stored for the request is the failure recorded when the resource
    answered 404 ([success: false]), and the replay is not a failure: the
    promise is fulfilled, with [ok = true] and status 200; the original
    failure had been thrown with [ok = false] and status 500. *)
Lemma stored_failure_replayed_as_success :
  storeErrorResponses (options (mocker Sample.replay_failure)) = true
  /\ isMocking (state (mocker Sample.replay_failure)) = true
  /\ getStoredResponse Sample.host "https://x/missing" "GET" JsUndefined
       (mocker Sample.replay_failure) = Some Sample.record_404
  /\ StoredResponse.response Sample.record_404 = failure_payload Sample.error_404
  /\ fst (smartFetch Sample.host Sample.missing Sample.GET (Sample.sys false true true))
     = RejectedView (failure_view Sample.error_404)
  /\ (forall v, fst (smartFetch Sample.host Sample.missing Sample.GET Sample.replay_failure)
                <> RejectedView v)
  /\ (forall x, fst (smartFetch Sample.host Sample.missing Sample.GET Sample.replay_failure)
                <> RejectedRaw x)
  /\ exists r,
       fst (smartFetch Sample.host Sample.missing Sample.GET Sample.replay_failure)
       = Fulfilled r
       /\ MockResponse.ok r = true /\ MockResponse.status r = 200.
Proof.
  assert (H : smartFetch Sample.host Sample.missing Sample.GET Sample.replay_failure
              = (Fulfilled (stored_view Sample.host Sample.record_404), Sample.replay_failure)).
  { apply smartFetch_cache_hit. vm_compute. reflexivity. }
  split_and!.
  - reflexivity.
  - reflexivity.
  - vm_compute. reflexivity.
  - reflexivity.
  - vm_compute. reflexivity.
  - intros v. rewrite H. discriminate.
  - intros x. rewrite H. discriminate.
  - rewrite H. eexists. split_and!; reflexivity.
Qed.

(** C10. On a cache hit, [clone()] of the returned response throws: its
    closure reads the binding [response], which is never initialised on this
    path. The other accessors are safe: [json()] and [text()] are fulfilled,
    and [headers], [ok] and [status] are plain fields, taken from the record
    or constant. *)
Theorem cache_hit_clone_throws host input init s storedResponse :
  cache_hit host input init (mocker s) = Some storedResponse ->
  exists r,
    fst (smartFetch host input init s) = Fulfilled r
    /\ MockResponse.clone r = Abrupt (ExnError ReferenceError_response)
    /\ (forall copy, MockResponse.clone r <> Normal copy)
    /\ MockResponse.json r = Normal (StoredResponse.response storedResponse)
    /\ MockResponse.text r
       = Normal (JSON_stringify host (StoredResponse.response storedResponse))
    /\ MockResponse.headers r = StoredResponse.headers storedResponse
    /\ MockResponse.ok r = true
    /\ MockResponse.status r = 200.
Proof.
  intros Hhit. exists (stored_view host storedResponse).
  rewrite (smartFetch_cache_hit _ _ _ _ _ Hhit). simpl.
  split_and!; try reflexivity. discriminate.
Qed.

Lemma cache_hit_clone_throws_witness :
  exists r,
    fst (smartFetch Sample.host Sample.xy Sample.GET Sample.replay) = Fulfilled r
    /\ MockResponse.clone r = Abrupt (ExnError ReferenceError_response)
    /\ (forall copy, MockResponse.clone r <> Normal copy)
    /\ MockResponse.json r = Normal (StoredResponse.response Sample.record_a1)
    /\ MockResponse.text r
       = Normal (JSON_stringify Sample.host (StoredResponse.response Sample.record_a1))
    /\ MockResponse.headers r = StoredResponse.headers Sample.record_a1
    /\ MockResponse.ok r = true
    /\ MockResponse.status r = 200.
Proof.
  apply (cache_hit_clone_throws Sample.host Sample.xy Sample.GET Sample.replay
           Sample.record_a1).
  vm_compute. reflexivity.
Defined.

(* ===================================================================== *)
(** ** The static mock registry *)
(* ===================================================================== *)

Lemma same_target_refl config : same_target config config = true.
Proof. unfold same_target. rewrite !String.eqb_refl. reflexivity. Qed.

Lemma same_target_congr c1 c2 m :
  MockConfig.endpoint c1 = MockConfig.endpoint c2 ->
  MockConfig.method c1 = MockConfig.method c2 ->
  same_target c2 m = same_target c1 m.
Proof. unfold same_target. intros -> ->. reflexivity. Qed.

Lemma exists_same_target c1 c2 (registry : list MockConfig.t) :
  MockConfig.endpoint c1 = MockConfig.endpoint c2 ->
  MockConfig.method c1 = MockConfig.method c2 ->
  existsb (same_target c2) registry = existsb (same_target c1) registry.
Proof.
  intros He Hm. induction registry as [|m registry IH]; simpl; [reflexivity|].
  rewrite IH, (same_target_congr c1 c2 m He Hm). reflexivity.
Qed.

Lemma addMock_present config m :
  existsb (same_target config) (mocks (state m)) = true -> addMock config m = m.
Proof. unfold addMock. intros ->. reflexivity. Qed.

Lemma addMock_registers config m :
  existsb (same_target config) (mocks (state (addMock config m))) = true.
Proof.
  unfold addMock. destruct (existsb (same_target config) (mocks (state m))) eqn:E; simpl.
  - exact E.
  - rewrite existsb_app. simpl. unfold same_target at 2. simpl.
    rewrite !String.eqb_refl. simpl. apply orb_true_r.
Qed.

Lemma addMock_fresh config m :
  existsb (same_target config) (mocks (state m)) = false ->
  mocks (state (addMock config m))
  = (mocks (state m)
     ++ [ {| MockConfig.endpoint := MockConfig.endpoint config;
             MockConfig.method := MockConfig.method config;
             MockConfig.response := MockConfig.response config;
             MockConfig.delay :=
               Some (default (defaultDelay (options m)) (MockConfig.delay config));
             MockConfig.request := MockConfig.request config |} ])%list.
Proof. unfold addMock. intros ->. reflexivity. Qed.

Lemma same_target_equalities config m :
  same_target config m = true ->
  MockConfig.endpoint config = MockConfig.endpoint m
  /\ MockConfig.method config = MockConfig.method m.
Proof.
  unfold same_target. intros H. apply andb_prop in H as [He Hm].
  apply String.eqb_eq in He, Hm. split; congruence.
Qed.

(** A registration never removes a pair from the registry. *)
Lemma addMock_keeps_registered config other m :
  existsb (same_target config) (mocks (state m)) = true ->
  existsb (same_target config) (mocks (state (addMock other m))) = true.
Proof.
  intros H. unfold addMock.
  destruct (existsb (same_target other) (mocks (state m))); simpl; [exact H|].
  rewrite existsb_app, H. reflexivity.
Qed.

(** Nor does it add or change an entry for a pair that is registered. *)
Lemma addMock_keeps_entries config other m :
  existsb (same_target config) (mocks (state m)) = true ->
  List.filter (same_target config) (mocks (state (addMock other m)))
  = List.filter (same_target config) (mocks (state m)).
Proof.
  intros H. unfold addMock.
  destruct (existsb (same_target other) (mocks (state m))) eqn:Hother; simpl; [reflexivity|].
  rewrite List.filter_app. simpl.
  match goal with |- context [same_target config ?entry] =>
    destruct (same_target config entry) eqn:Hsame end; [|apply app_nil_r].
  apply same_target_equalities in Hsame as [He Hm]. simpl in He, Hm.
  rewrite (exists_same_target config other _ He Hm) in Hother. congruence.
Qed.

Lemma register_all_keeps_registered config (between : list MockConfig.t) m :
  existsb (same_target config) (mocks (state m)) = true ->
  existsb (same_target config) (mocks (state (register_all between m))) = true
  /\ List.filter (same_target config) (mocks (state (register_all between m)))
     = List.filter (same_target config) (mocks (state m)).
Proof.
  revert m. induction between as [|other between IH]; intros m H; simpl; [auto|].
  destruct (IH (addMock other m) (addMock_keeps_registered config other m H)) as [H1 H2].
  split; [exact H1|]. rewrite H2. apply addMock_keeps_entries. exact H.
Qed.

(** C9. First registration wins: once a configuration has been registered,
    any later registration with the same endpoint and method, whatever else
    it holds and whatever was registered in between, leaves the instance (and
    so the registry) as it was; the entries of the registry for that pair are
    still those present after the first registration. More generally, on any
    instance whose registry holds an entry for the pair, the registration
    changes nothing. *)
Theorem addMock_first_registration_wins (m : ApiMocker) (c1 c2 : MockConfig.t)
    (between : list MockConfig.t) :
  MockConfig.endpoint c1 = MockConfig.endpoint c2 ->
  MockConfig.method c1 = MockConfig.method c2 ->
  addMock c2 (register_all between (addMock c1 m)) = register_all between (addMock c1 m)
  /\ List.filter (same_target c1)
       (mocks (state (addMock c2 (register_all between (addMock c1 m)))))
     = List.filter (same_target c1) (mocks (state (addMock c1 m)))
  /\ (forall later : ApiMocker,
        existsb (same_target c1) (mocks (state later)) = true ->
        addMock c2 later = later).
Proof.
  intros He Hm.
  destruct (register_all_keeps_registered c1 between (addMock c1 m) (addMock_registers c1 m))
    as [Hreg Hentries].
  assert (Hnoop : addMock c2 (register_all between (addMock c1 m))
                  = register_all between (addMock c1 m)).
  { apply addMock_present. rewrite (exists_same_target c1 c2 _ He Hm). exact Hreg. }
  split; [exact Hnoop|]. split; [rewrite Hnoop; exact Hentries|].
  intros later Hlater. apply addMock_present.
  rewrite (exists_same_target c1 c2 _ He Hm). exact Hlater.
Qed.

Lemma addMock_first_registration_wins_witness :
  (addMock Sample.ping_other
     (register_all [Sample.pong] (addMock Sample.ping (Sample.make true false false)))
   = register_all [Sample.pong] (addMock Sample.ping (Sample.make true false false))
   /\ List.filter (same_target Sample.ping)
        (mocks (state (addMock Sample.ping_other
                         (register_all [Sample.pong]
                            (addMock Sample.ping (Sample.make true false false))))))
      = List.filter (same_target Sample.ping)
          (mocks (state (addMock Sample.ping (Sample.make true false false))))
   /\ (forall later : ApiMocker,
         existsb (same_target Sample.ping) (mocks (state later)) = true ->
         addMock Sample.ping_other later = later))
  /\ map MockConfig.response
       (mocks (state (addMock Sample.ping_other
                        (register_all [Sample.pong]
                           (addMock Sample.ping (Sample.make true false false))))))
     = [JsObject [("pong", JsBool true)]; JsObject [("ping", JsBool true)]].
Proof.
  split.
  - apply (addMock_first_registration_wins (Sample.make true false false)
             Sample.ping Sample.ping_other [Sample.pong]); reflexivity.
  - reflexivity.
Defined.

Ltac unfold_engine :=
  unfold getStoredResponse, fetchWithAgent, stored_request, init_headers_record,
    storedResponses_set, assign_storedResponses, saveToStorage, saveResponses,
    writeFile, log, bind, ret, throw, await, get_mocker, get_world, set_mocker,
    set_world, with_state; simpl.

Lemma try_ignores_mocks host input init url method requestBody ms s :
  smartFetch_try host input init url method requestBody (with_mocks ms s)
  = (fst (smartFetch_try host input init url method requestBody s),
     with_mocks ms (snd (smartFetch_try host input init url method requestBody s))).
Proof.
  destruct s as [[[storeReal storeError dd om] [im mk st]] w].
  unfold smartFetch_try, with_mocks. unfold_engine.
  destruct im, storeReal; simpl; try reflexivity;
    repeat (case_match; simpl in *; simplify_eq; try reflexivity).
Qed.

Lemma catch_ignores_mocks host init url method requestBody error ms s :
  smartFetch_catch host init url method requestBody error (with_mocks ms s)
  = (fst (smartFetch_catch host init url method requestBody error s),
     with_mocks ms (snd (smartFetch_catch host init url method requestBody error s))).
Proof.
  destruct s as [[[storeReal storeError dd om] [im mk st]] w].
  unfold smartFetch_catch, with_mocks. unfold_engine.
  destruct storeReal, storeError; simpl; try reflexivity;
    repeat (case_match; simpl in *; simplify_eq; try reflexivity).
Qed.

(** The registry is not read by smartFetch: with any other registry the
    promise settles the same way and the instance and the world end the
    same, registry apart. *)
Lemma smartFetch_ignores_mocks host input init ms s :
  smartFetch host input init (with_mocks ms s)
  = (fst (smartFetch host input init s), with_mocks ms (snd (smartFetch host input init s))).
Proof.
  unfold smartFetch. rewrite try_ignores_mocks.
  destruct (smartFetch_try host input init (input_url input) (init_method init)
              (init_body init) s) as [[r | error] s']; simpl; [reflexivity|].
  rewrite catch_ignores_mocks.
  destruct (smartFetch_catch host init (input_url input) (init_method init)
              (init_body init) error s') as [[view | x] s'']; reflexivity.
Qed.

(** C3 at the scenario's input. The ping mock is registered with its delay
    of 50, mocking is enabled and the cache is empty. smartFetch of ["/ping"]
    does not answer from the registry: it looks in the cache, misses, and
    uses the live-call capability, whose failure it throws (status 0); the
    payload [{pong: true}] is not returned. *)
Theorem static_mock_not_served :
  mocks (state (mocker Sample.ping_sys)) = [Sample.ping]
  /\ smartFetch Sample.host Sample.ping_request Sample.GET Sample.ping_sys
     = (RejectedView (failure_view (ExnError (Sample.TypeError "Invalid URL"))),
        logged (EvFetch "/ping" Sample.GET) Sample.ping_sys)
  /\ live_calls (trace (world (snd (smartFetch Sample.host Sample.ping_request Sample.GET
                                      Sample.ping_sys)))) = 1%nat
  /\ forall r, fst (smartFetch Sample.host Sample.ping_request Sample.GET Sample.ping_sys)
               <> Fulfilled r.
Proof.
  assert (H : smartFetch Sample.host Sample.ping_request Sample.GET Sample.ping_sys
     = (RejectedView (failure_view (ExnError (Sample.TypeError "Invalid URL"))),
        logged (EvFetch "/ping" Sample.GET) Sample.ping_sys))
    by (vm_compute; reflexivity).
  split_and!.
  - reflexivity.
  - exact H.
  - rewrite H. reflexivity.
  - intros r. rewrite H. discriminate.
Qed.

(* ===================================================================== *)
(** ** Live calls: what is stored and what is thrown *)
(* ===================================================================== *)

Lemma bind_ret_normal {A B} (c : M A) (v v' : B) (s s' : Sys) :
  bind c (fun _ => ret v) s = (Normal v', s') -> v' = v.
Proof. unfold bind, ret. destruct (c s) as [[a | x] s1]; congruence. Qed.

Section LiveCall.
Context (host : Host) (input : RequestInfo) (init : option RequestInit.t).

Let url := input_url input.
Let method := init_method init.
Let requestBody := init_body init.
Let key := storage_key host url method requestBody.

Lemma stored_request_accepted s :
  headers_accepted host init ->
  exists request,
    stored_request host url method requestBody init s = (Normal request, s)
    /\ StoredRequest.url request = url
    /\ StoredRequest.method request = method
    /\ StoredRequest.body request = requestBody.
Proof.
  unfold headers_accepted, stored_request, init_headers_record, bind, await, ret.
  destruct init as [i|]; [destruct (RequestInit.headers i) as [h|]|].
  - intros [entries ->]. eexists. split_and!; reflexivity.
  - intros _. eexists. split_and!; reflexivity.
  - intros _. eexists. split_and!; reflexivity.
Qed.

(** The [catch] block when failures are not stored. *)
Lemma catch_without_storage s error :
  storeRealResponses (options (mocker s)) && storeErrorResponses (options (mocker s)) = false ->
  smartFetch_catch host init url method requestBody error s
  = (Normal (failure_view error), s).
Proof.
  unfold smartFetch_catch, bind, get_mocker, ret. simpl. intros ->. reflexivity.
Qed.

(** The [catch] block when failures are stored. *)
Lemma catch_with_storage s error :
  storeRealResponses (options (mocker s)) && storeErrorResponses (options (mocker s)) = true ->
  headers_accepted host init ->
  exists record,
    StoredResponse.response record = failure_payload error
    /\ let cache := <[key := record]> (storedResponses (state (mocker s))) in
       smartFetch_catch host init url method requestBody error s
       = (match write_failure (world s) with
          | None => Normal (failure_view error)
          | Some e => Abrupt (ExnError e)
          end,
          {| mocker := with_cache cache (mocker s);
             world :=
               {| disk := match write_failure (world s) with
                          | None => Document cache
                          | Some _ => disk (world s)
                          end;
                  write_failure := write_failure (world s);
                  network := network (world s); clock := clock (world s);
                  trace := EvSave cache :: trace (world s) |} |}).
Proof.
  intros Hflags Hacc.
  destruct (stored_request_accepted s Hacc) as (request & Hreq & _).
  apply andb_prop in Hflags as [Hreal Herr].
  exists {| StoredResponse.response := failure_payload error;
            StoredResponse.timestamp := clock (world s);
            StoredResponse.headers := Some ∅;
            StoredResponse.request := request |}.
  split; [reflexivity|].
  unfold smartFetch_catch, bind at 1 2 3 4, get_mocker, get_world. simpl.
  rewrite Hreal, Herr. simpl. unfold bind at 1. rewrite Hreq.
  destruct s as [m w]. simpl in *. unfold_engine. rewrite Hreal.
  unfold with_cache, with_state. fold url method requestBody key. simpl.
  destruct (write_failure w) eqn:Hw; simpl; rewrite ?Hw; reflexivity.
Qed.

(** The [catch] block gives the failure view of the error it caught, unless
    storing the failure itself fails. *)
Lemma catch_outcome s error :
  (exists s', smartFetch_catch host init url method requestBody error s
              = (Normal (failure_view error), s'))
  \/ (storeRealResponses (options (mocker s)) && storeErrorResponses (options (mocker s)) = true
      /\ exists x s', smartFetch_catch host init url method requestBody error s
                      = (Abrupt x, s')).
Proof.
  destruct (storeRealResponses (options (mocker s)) && storeErrorResponses (options (mocker s)))
    eqn:Hflags.
  - destruct (smartFetch_catch host init url method requestBody error s) as [[v | x] s'] eqn:E.
    + left. exists s'.
      assert (Hv : v = failure_view error).
      { revert E. unfold smartFetch_catch, bind at 1, get_mocker. simpl.
        apply bind_ret_normal. }
      rewrite Hv. reflexivity.
    + right. split; [reflexivity|]. eauto.
  - left. exists s. apply catch_without_storage. exact Hflags.
Qed.

(** A live call that fails, seen from the caller. *)
Lemma smartFetch_live_failure s error :
  cache_hit host input init (mocker s) = None ->
  live_failure host (world s) input init error ->
  smartFetch host input init s
  = match smartFetch_catch host init url method requestBody error
            (logged (EvFetch url init) s) with
    | (Normal view, s') => (RejectedView view, s')
    | (Abrupt x, s') => (RejectedRaw x, s')
    end.
Proof.
  intros Hmiss Hfail. unfold smartFetch.
  rewrite (try_live_failure host input init s error Hmiss Hfail). reflexivity.
Qed.

(** A live call that succeeds with storage enabled: the record is put in
    the cache and the whole cache is saved. *)
Lemma try_live_success_stored s response data :
  cache_hit host input init (mocker s) = None ->
  live_success (world s) input init response data ->
  storeRealResponses (options (mocker s)) = true ->
  headers_accepted host init ->
  exists record,
    StoredResponse.response record = success_payload data
    /\ let cache := <[key := record]> (storedResponses (state (mocker s))) in
       smartFetch_try host input init url method requestBody s
       = (match write_failure (world s) with
          | None => Normal (live_view response data)
          | Some e => Abrupt (ExnError e)
          end,
          {| mocker := with_cache cache (mocker s);
             world := after_save (EvFetch url init) cache (world s) |}).
Proof.
  intros Hmiss (Hn & Hok & Hj) Hreal Hacc.
  destruct (stored_request_accepted (logged (EvFetch url init) s) Hacc) as (request & Hreq & _).
  exists {| StoredResponse.response := success_payload data;
            StoredResponse.timestamp := clock (world s);
            StoredResponse.headers := Some (headersToRecord (Response.headers response));
            StoredResponse.request := request |}.
  split; [reflexivity|].
  revert Hmiss. unfold cache_hit, smartFetch_try, bind at 1, get_mocker. simpl.
  fold url method requestBody. intros ->.
  unfold fetchWithAgent, log, bind at 1 2 3 4 5, get_world, set_world, await. simpl.
  fold url in Hn |- *. rewrite Hn, Hok. simpl. rewrite Hj.
  unfold bind at 1 2, get_mocker. simpl. rewrite Hreal.
  unfold bind at 1 2 3, get_world. simpl. unfold logged in Hreq. rewrite Hreq.
  destruct s as [m w]. simpl in *. unfold_engine. rewrite Hreal.
  unfold with_cache, with_state, after_save. fold url method requestBody key. simpl.
  destruct (write_failure w) eqn:Hw; simpl; rewrite ?Hw; reflexivity.
Qed.

End LiveCall.

(* ===================================================================== *)
(** ** clearStoredResponses *)
(* ===================================================================== *)

(** C4, as the code has it. For every prior cache and every configuration,
    clearStoredResponses empties the in-memory mapping. It does not call the
    adapter's [clearResponses]: with real-response storage enabled it calls
    [saveResponses] with the empty mapping (after which the file holds the
    empty mapping, unless the write fails); with storage disabled it uses no
    capability and the file is left as it was. *)
Theorem clearStoredResponses_effect (s : Sys) :
  storedResponses (state (mocker (snd (clearStoredResponses s)))) = ∅
  /\ options (mocker (snd (clearStoredResponses s))) = options (mocker s)
  /\ trace (world (snd (clearStoredResponses s)))
     = ((if storeRealResponses (options (mocker s)) then [EvSave ∅] else [])
        ++ trace (world s))%list
  /\ disk (world (snd (clearStoredResponses s)))
     = (if storeRealResponses (options (mocker s))
        then match write_failure (world s) with
             | None => Document ∅
             | Some _ => disk (world s)
             end
        else disk (world s))
  /\ fst (clearStoredResponses s)
     = (if storeRealResponses (options (mocker s))
        then save_completion (world s)
        else Normal tt).
Proof.
  destruct s as [[o st] w]. unfold clearStoredResponses, save_completion. unfold_engine.
  destruct (storeRealResponses o); simpl; [|split_and!; reflexivity].
  destruct (write_failure w); simpl; split_and!; reflexivity.
Qed.

(** C4 fails as stated: after a response was recorded and real-response
    storage was then switched off, clearStoredResponses does not call the
    adapter's [clearResponses] and the file still holds the record; calling
    [clearResponses] in the same state empties the file. *)
Lemma clearStoredResponses_does_not_call_clear :
  storeRealResponses (options (mocker Sample.storage_switched_off)) = false
  /\ ~ In EvClear (trace (world (snd (clearStoredResponses Sample.storage_switched_off))))
  /\ disk (world (snd (clearStoredResponses Sample.storage_switched_off)))
     = Document {[ "https://x/y_GET_3938" := Sample.record_a1 ]}
  /\ In EvClear (trace (world (snd (clearResponses Sample.storage_switched_off))))
  /\ disk (world (snd (clearResponses Sample.storage_switched_off))) = Document ∅.
Proof.
  split_and!.
  - reflexivity.
  - vm_compute. intros [H | [H | []]]; discriminate.
  - vm_compute. reflexivity.
  - left. reflexivity.
  - reflexivity.
Qed.

(* ===================================================================== *)
(** ** Write-through gating *)
(* ===================================================================== *)

Lemma smartFetch_live_success_unstored host input init s response data :
  storeRealResponses (options (mocker s)) = false ->
  cache_hit host input init (mocker s) = None ->
  live_success (world s) input init response data ->
  smartFetch host input init s
  = (Fulfilled (live_view response data), logged (EvFetch (input_url input) init) s).
Proof.
  intros Hstore Hmiss Hlive. unfold smartFetch.
  rewrite (try_live_success_unstored host input init s response data Hmiss Hlive Hstore).
  reflexivity.
Qed.

(** With real-response storage off, smartFetch never touches the cache or
    the file, however it settles. *)
Lemma smartFetch_storage_off_frame host input init s :
  storeRealResponses (options (mocker s)) = false ->
  mocker (snd (smartFetch host input init s)) = mocker s
  /\ disk (world (snd (smartFetch host input init s))) = disk (world s).
Proof.
  destruct s as [[[storeReal storeError dd om] [im mk st]] w]. simpl. intros ->.
  unfold smartFetch, smartFetch_try, smartFetch_catch. unfold_engine.
  destruct im; simpl; repeat (case_match; simpl in *; simplify_eq); split; reflexivity.
Qed.

Example sample_live_success :
  live_success Sample.world0 Sample.xy Sample.GET Sample.response_a1
    (JsObject [("a", JsNumber 1)]).
Proof. split_and!; reflexivity. Qed.

Example sample_live_failure :
  live_failure Sample.host Sample.world0 Sample.missing Sample.GET Sample.error_404.
Proof. apply (HttpStatusFailure _ _ _ _ Sample.response_404); reflexivity. Qed.

(** C5, as the code has it. A successful live call made while real-response
    storage is disabled is neither written through nor put in the cache: the
    promise is fulfilled with the live response, the cache and the file are
    as before, and the only capability used is the live call. *)
Theorem unstored_live_success_leaves_cache host input init s response data :
  storeRealResponses (options (mocker s)) = false ->
  cache_hit host input init (mocker s) = None ->
  live_success (world s) input init response data ->
  fst (smartFetch host input init s) = Fulfilled (live_view response data)
  /\ storedResponses (state (mocker (snd (smartFetch host input init s))))
     = storedResponses (state (mocker s))
  /\ getStoredResponse host (input_url input) (init_method init) (init_body init)
       (mocker (snd (smartFetch host input init s)))
     = getStoredResponse host (input_url input) (init_method init) (init_body init)
         (mocker s)
  /\ disk (world (snd (smartFetch host input init s))) = disk (world s)
  /\ trace (world (snd (smartFetch host input init s)))
     = EvFetch (input_url input) init :: trace (world s).
Proof.
  intros Hstore Hmiss Hlive.
  rewrite (smartFetch_live_success_unstored _ _ _ _ _ _ Hstore Hmiss Hlive).
  split_and!; reflexivity.
Qed.

Lemma unstored_live_success_leaves_cache_witness :
  fst (smartFetch Sample.host Sample.xy Sample.GET (Sample.sys false false false))
  = Fulfilled (live_view Sample.response_a1 (JsObject [("a", JsNumber 1)]))
  /\ storedResponses (state (mocker (snd (smartFetch Sample.host Sample.xy Sample.GET
                                            (Sample.sys false false false)))))
     = storedResponses (state (mocker (Sample.sys false false false)))
  /\ getStoredResponse Sample.host "https://x/y" "GET" JsUndefined
       (mocker (snd (smartFetch Sample.host Sample.xy Sample.GET
                       (Sample.sys false false false))))
     = getStoredResponse Sample.host "https://x/y" "GET" JsUndefined
         (mocker (Sample.sys false false false))
  /\ disk (world (snd (smartFetch Sample.host Sample.xy Sample.GET
                         (Sample.sys false false false)))) = NoFile
  /\ trace (world (snd (smartFetch Sample.host Sample.xy Sample.GET
                          (Sample.sys false false false))))
     = [EvFetch "https://x/y" Sample.GET].
Proof.
  apply (unstored_live_success_leaves_cache Sample.host Sample.xy Sample.GET
           (Sample.sys false false false) Sample.response_a1 (JsObject [("a", JsNumber 1)])).
  - reflexivity.
  - reflexivity.
  - split_and!; reflexivity.
Defined.

(** C5 fails as stated: storage is disabled, the live call succeeds and is
    returned, and a lookup under the same key afterwards finds nothing. *)
Lemma unstored_live_success_not_cached :
  storeRealResponses (options (mocker (Sample.sys false false false))) = false
  /\ live_success (world (Sample.sys false false false)) Sample.xy Sample.GET
       Sample.response_a1 (JsObject [("a", JsNumber 1)])
  /\ fst (smartFetch Sample.host Sample.xy Sample.GET (Sample.sys false false false))
     = Fulfilled (live_view Sample.response_a1 (JsObject [("a", JsNumber 1)]))
  /\ getStoredResponse Sample.host "https://x/y" "GET" JsUndefined
       (mocker (snd (smartFetch Sample.host Sample.xy Sample.GET
                       (Sample.sys false false false))))
     = None.
Proof.
  split_and!.
  - reflexivity.
  - split_and!; reflexivity.
  - reflexivity.
  - vm_compute. reflexivity.
Qed.

(** C8. Write-through gating: with [storeRealResponses] false, a successful
    live call leaves the contents of the durable store as they were, and
    the adapter is not used (the live call is the only event logged). *)
Theorem storage_off_leaves_disk host input init s response data :
  storeRealResponses (options (mocker s)) = false ->
  cache_hit host input init (mocker s) = None ->
  live_success (world s) input init response data ->
  disk (world (snd (smartFetch host input init s))) = disk (world s)
  /\ trace (world (snd (smartFetch host input init s)))
     = EvFetch (input_url input) init :: trace (world s)
  /\ exists r, fst (smartFetch host input init s) = Fulfilled r.
Proof.
  intros Hstore Hmiss Hlive.
  rewrite (smartFetch_live_success_unstored _ _ _ _ _ _ Hstore Hmiss Hlive).
  split_and!; [reflexivity | reflexivity | eexists; reflexivity].
Qed.

Lemma storage_off_leaves_disk_witness :
  disk (world (snd (smartFetch Sample.host Sample.xy Sample.GET Sample.storage_switched_off)))
  = disk (world Sample.storage_switched_off)
  /\ trace (world (snd (smartFetch Sample.host Sample.xy Sample.GET
                          Sample.storage_switched_off)))
     = EvFetch "https://x/y" Sample.GET :: trace (world Sample.storage_switched_off)
  /\ exists r, fst (smartFetch Sample.host Sample.xy Sample.GET Sample.storage_switched_off)
               = Fulfilled r.
Proof.
  apply (storage_off_leaves_disk Sample.host Sample.xy Sample.GET Sample.storage_switched_off
           Sample.response_a1 (JsObject [("a", JsNumber 1)])).
  - reflexivity.
  - reflexivity.
  - split_and!; reflexivity.
Defined.

(* ===================================================================== *)
(** ** Failing live calls *)
(* ===================================================================== *)

Lemma failure_status_cases error :
  failure_status error = if is_TypeError error then 0 else 500.
Proof. destruct error as [e | v]; reflexivity. Qed.

Lemma http_failure_error host w input init error response :
  live_failure host w input init error ->
  network w (input_url input) init = Normal response ->
  Response.ok response = false ->
  error = ExnError (new_Error host (http_error_message host response)).
Proof.
  intros [x Hx | response' Hn' Hok' | response' x Hn' Hok' Hj] Hn Hok.
  - congruence.
  - congruence.
  - assert (response' = response) by congruence. subst. congruence.
Qed.

Lemma headers_accepted_or_rejected host init :
  headers_accepted host init \/ exists x, headers_rejected host init x.
Proof.
  unfold headers_accepted, headers_rejected.
  destruct init as [i|]; [|left; exact I].
  destruct (RequestInit.headers i) as [h|]; [|left; exact I].
  destruct (new_Headers host h) as [entries | x]; [left | right]; eauto.
Qed.

Lemma headers_not_both host init x :
  headers_accepted host init -> headers_rejected host init x -> False.
Proof.
  unfold headers_accepted, headers_rejected.
  destruct init as [i|]; [|tauto].
  destruct (RequestInit.headers i) as [h|]; [|tauto].
  intros [entries ->]. discriminate.
Qed.

Lemma store_failure_unique host init w x x' :
  store_failure host init w x -> store_failure host init w x' -> x = x'.
Proof.
  intros [Hr | (Ha & e & Hw & ->)] [Hr' | (Ha' & e' & Hw' & ->)].
  - revert Hr Hr'. unfold headers_rejected.
    destruct init as [i|]; [|tauto]. destruct (RequestInit.headers i) as [h|]; [|tauto].
    congruence.
  - destruct (headers_not_both _ _ _ Ha' Hr).
  - destruct (headers_not_both _ _ _ Ha Hr').
  - congruence.
Qed.

Lemma store_failure_excluded host init w x :
  store_failure host init w x ->
  headers_accepted host init -> write_failure w = None -> False.
Proof.
  intros [Hr | (_ & e & Hw & _)] Ha Hnone.
  - exact (headers_not_both _ _ _ Ha Hr).
  - congruence.
Qed.

(** The [catch] block when failures are stored and [new Headers] throws:
    nothing is stored, and what it threw leaves the block. *)
Lemma catch_headers_rejected host init url method requestBody error s x :
  storeRealResponses (options (mocker s)) && storeErrorResponses (options (mocker s)) = true ->
  headers_rejected host init x ->
  smartFetch_catch host init url method requestBody error s = (Abrupt x, s).
Proof.
  destruct s as [[[storeReal storeError dd om] st] w]. simpl.
  intros Hflags. apply andb_prop in Hflags as [-> ->].
  unfold headers_rejected, smartFetch_catch. unfold_engine.
  destruct init as [i|]; [|tauto]. simpl.
  destruct (RequestInit.headers i) as [h|]; [|tauto]. simpl.
  intros ->. reflexivity.
Qed.

(** How a failing live call settles: with the view of the error caught, when
    failures are not stored or storing succeeds; with the error of the store,
    when storing the failure fails. *)
Lemma live_failure_outcome host input init s error :
  cache_hit host input init (mocker s) = None ->
  live_failure host (world s) input init error ->
  (fst (smartFetch host input init s) = RejectedView (failure_view error)
   /\ (storeRealResponses (options (mocker s)) && storeErrorResponses (options (mocker s))
       = false
       \/ (headers_accepted host init /\ write_failure (world s) = None)))
  \/ (exists x,
        fst (smartFetch host input init s) = RejectedRaw x
        /\ storeRealResponses (options (mocker s)) && storeErrorResponses (options (mocker s))
           = true
        /\ store_failure host init (world s) x).
Proof.
  intros Hmiss Hfail.
  rewrite (smartFetch_live_failure host input init s error Hmiss Hfail).
  set (s1 := logged (EvFetch (input_url input) init) s).
  destruct (storeRealResponses (options (mocker s))
            && storeErrorResponses (options (mocker s))) eqn:Hflags.
  - destruct (headers_accepted_or_rejected host init) as [Hacc | [x Hrej]].
    + destruct (catch_with_storage host input init s1 error Hflags Hacc) as (record & _ & E).
      simpl in E. rewrite E. simpl.
      destruct (write_failure (world s)) as [e|] eqn:Hw; simpl.
      * right. exists (ExnError e). split; [reflexivity|]. split; [reflexivity|].
        right. split; [exact Hacc|]. exists e. split; [exact Hw | reflexivity].
      * left. split; [reflexivity|]. right. split; [exact Hacc | reflexivity].
    + rewrite (catch_headers_rejected host init _ _ _ error s1 x Hflags Hrej). simpl.
      right. exists x. split; [reflexivity|]. split; [reflexivity|]. left. exact Hrej.
  - rewrite (catch_without_storage host input init s1 error Hflags). simpl.
    left. split; [reflexivity|]. left. reflexivity.
Qed.

Lemma transport_failure_error host w input init error x :
  live_failure host w input init error ->
  network w (input_url input) init = Abrupt x ->
  error = x.
Proof.
  intros [x' Hx | response Hn Hok | response x' Hn Hok Hj] Hnet; congruence.
Qed.

(** C6, as the code has it. When a live call fails, the failure value thrown
    to the caller is the view of the error caught: its status is 0 when that
    error is an [Error] named TypeError and 500 otherwise. The promise is
    rejected with this view whenever failures are not stored, or storing
    them succeeds; when storing the failure fails (in [new Headers], or in
    the write of the file), it is rejected with the error of the failed
    store instead. For a response with a non-success status the error caught
    is the [Error] made at line 267, so the status thrown is 500, and the
    response's own status, status text and body appear only in the message.
    For a rejection of [fetch] the error caught is what [fetch] rejected
    with, so the status thrown is 0 only when that is a TypeError. *)
Theorem live_failure_surfaced_status host input init s error :
  cache_hit host input init (mocker s) = None ->
  live_failure host (world s) input init error ->
  match fst (smartFetch host input init s) with
  | RejectedView v =>
      v = failure_view error
      /\ MockResponse.status v = (if is_TypeError error then 0 else 500)
  | RejectedRaw x =>
      storeRealResponses (options (mocker s)) && storeErrorResponses (options (mocker s))
      = true
      /\ store_failure host init (world s) x
  | Fulfilled _ => False
  end
  /\ ((storeRealResponses (options (mocker s)) && storeErrorResponses (options (mocker s))
       = false
       \/ (headers_accepted host init /\ write_failure (world s) = None)) ->
      fst (smartFetch host input init s) = RejectedView (failure_view error))
  /\ (forall x,
        storeRealResponses (options (mocker s)) && storeErrorResponses (options (mocker s))
        = true ->
        store_failure host init (world s) x ->
        fst (smartFetch host input init s) = RejectedRaw x)
  /\ (forall response,
        network (world s) (input_url input) init = Normal response ->
        Response.ok response = false ->
        MockResponse.status (failure_view error) = 500
        /\ MockResponse.statusText (failure_view error)
           = http_error_message host response)
  /\ (forall x,
        network (world s) (input_url input) init = Abrupt x ->
        error = x
        /\ MockResponse.status (failure_view error) = (if is_TypeError x then 0 else 500)).
Proof.
  intros Hmiss Hfail.
  pose proof (live_failure_outcome host input init s error Hmiss Hfail) as Hout.
  split_and!.
  - destruct Hout as [[E _] | (x & E & Hflags & Hstore)]; rewrite E.
    + split; [reflexivity | apply failure_status_cases].
    + split; assumption.
  - intros Hcond. destruct Hout as [[E _] | (x & E & Hflags & Hstore)]; [exact E|].
    destruct Hcond as [Hoff | [Hacc Hw]]; [congruence|].
    destruct (store_failure_excluded _ _ _ _ Hstore Hacc Hw).
  - intros x Hflags Hstore. destruct Hout as [[_ Hcond] | (x' & E & _ & Hstore')].
    + destruct Hcond as [Hoff | [Hacc Hw]]; [congruence|].
      destruct (store_failure_excluded _ _ _ _ Hstore Hacc Hw).
    + rewrite E. f_equal. exact (store_failure_unique _ _ _ _ _ Hstore' Hstore).
  - intros response Hn Hok.
    rewrite (http_failure_error _ _ _ _ _ _ Hfail Hn Hok). split; reflexivity.
  - intros x Hn. pose proof (transport_failure_error _ _ _ _ _ _ Hfail Hn) as ->.
    split; [reflexivity | apply failure_status_cases].
Qed.

Lemma live_failure_surfaced_status_witness :
  match fst (smartFetch Sample.host Sample.missing Sample.GET (Sample.sys false true true)) with
  | RejectedView v =>
      v = failure_view Sample.error_404
      /\ MockResponse.status v = (if is_TypeError Sample.error_404 then 0 else 500)
  | RejectedRaw x =>
      storeRealResponses (options (mocker (Sample.sys false true true)))
      && storeErrorResponses (options (mocker (Sample.sys false true true))) = true
      /\ store_failure Sample.host Sample.GET (world (Sample.sys false true true)) x
  | Fulfilled _ => False
  end
  /\ ((storeRealResponses (options (mocker (Sample.sys false true true)))
       && storeErrorResponses (options (mocker (Sample.sys false true true))) = false
       \/ (headers_accepted Sample.host Sample.GET
           /\ write_failure (world (Sample.sys false true true)) = None)) ->
      fst (smartFetch Sample.host Sample.missing Sample.GET (Sample.sys false true true))
      = RejectedView (failure_view Sample.error_404))
  /\ (forall x,
        storeRealResponses (options (mocker (Sample.sys false true true)))
        && storeErrorResponses (options (mocker (Sample.sys false true true))) = true ->
        store_failure Sample.host Sample.GET (world (Sample.sys false true true)) x ->
        fst (smartFetch Sample.host Sample.missing Sample.GET (Sample.sys false true true))
        = RejectedRaw x)
  /\ (forall response,
        Sample.net "https://x/missing" Sample.GET = Normal response ->
        Response.ok response = false ->
        MockResponse.status (failure_view Sample.error_404) = 500
        /\ MockResponse.statusText (failure_view Sample.error_404)
           = http_error_message Sample.host response)
  /\ (forall x,
        Sample.net "https://x/missing" Sample.GET = Abrupt x ->
        Sample.error_404 = x
        /\ MockResponse.status (failure_view Sample.error_404)
           = (if is_TypeError x then 0 else 500)).
Proof.
  apply (live_failure_surfaced_status Sample.host Sample.missing Sample.GET
           (Sample.sys false true true) Sample.error_404).
  - reflexivity.
  - apply (HttpStatusFailure _ _ _ _ Sample.response_404); reflexivity.
Defined.

(** The store that fails, seen at work: both switches are on, the live call
    answers 404, and the file cannot be written; the promise is rejected
    with the write error itself. *)
Example failed_store_surfaces_its_error :
  fst (smartFetch Sample.host Sample.missing Sample.GET (Sample.sys_readonly false true true))
  = RejectedRaw (ExnError Sample.EACCES).
Proof. vm_compute. reflexivity. Qed.

(** C6 fails as stated, in both halves. The resource answers 404 with a
    body: the failure thrown to the caller has status 500, not 404, and the
    status code appears only in its message. The host cannot be reached and
    [fetch] rejects with node-fetch's FetchError: the failure thrown has
    status 500, not 0. *)
Lemma live_failure_status_not_carried :
  (network Sample.world0 "https://x/missing" Sample.GET = Normal Sample.response_404
   /\ Response.ok Sample.response_404 = false
   /\ Response.status Sample.response_404 = 404
   /\ exists v,
        fst (smartFetch Sample.host Sample.missing Sample.GET (Sample.sys false false false))
        = RejectedView v
        /\ MockResponse.status v = 500
        /\ MockResponse.status v <> Response.status Sample.response_404
        /\ MockResponse.statusText v
           = "HTTP error! status: 404, Not Found, data: "
             +:+ Sample.stringify (JsObject [("msg", JsString "nope")]))
  /\ (network Sample.world_down "https://x/y" Sample.GET
      = Abrupt (ExnError Sample.connection_refused)
      /\ live_failure Sample.host Sample.world_down Sample.xy Sample.GET
           (ExnError Sample.connection_refused)
      /\ exists v,
           fst (smartFetch Sample.host Sample.xy Sample.GET (Sample.sys_down false false false))
           = RejectedView v
           /\ MockResponse.status v = 500
           /\ MockResponse.status v <> 0).
Proof.
  split.
  - split_and!; try reflexivity.
    exists (failure_view Sample.error_404). split_and!.
    + vm_compute. reflexivity.
    + reflexivity.
    + discriminate.
    + vm_compute. reflexivity.
  - split_and!.
    + reflexivity.
    + apply TransportFailure. reflexivity.
    + exists (failure_view (ExnError Sample.connection_refused)). split_and!.
      * vm_compute. reflexivity.
      * reflexivity.
      * discriminate.
Qed.

(* ===================================================================== *)
(** ** Error gating *)
(* ===================================================================== *)

(** C7. Error gating: with [storeRealResponses] true and
    [storeErrorResponses] false, a live call that fails is thrown to the
    caller and leaves the instance (so the cache) and the file as they were;
    a live call that succeeds puts a record holding its data under the
    request's key in the cache, and the file then holds the whole cache
    (when the write succeeds, in which case the promise is fulfilled with
    the live response). *)
Theorem error_gating host input init s :
  storeRealResponses (options (mocker s)) = true ->
  storeErrorResponses (options (mocker s)) = false ->
  cache_hit host input init (mocker s) = None ->
  (forall error,
     live_failure host (world s) input init error ->
     fst (smartFetch host input init s) = RejectedView (failure_view error)
     /\ mocker (snd (smartFetch host input init s)) = mocker s
     /\ disk (world (snd (smartFetch host input init s))) = disk (world s))
  /\ (forall response data,
        live_success (world s) input init response data ->
        headers_accepted host init ->
        exists record,
          getStoredResponse host (input_url input) (init_method init) (init_body init)
            (mocker (snd (smartFetch host input init s))) = Some record
          /\ StoredResponse.response record = success_payload data
          /\ (write_failure (world s) = None ->
              fst (smartFetch host input init s) = Fulfilled (live_view response data)
              /\ disk (world (snd (smartFetch host input init s)))
                 = Document (storedResponses
                               (state (mocker (snd (smartFetch host input init s))))))).
Proof.
  intros Hreal Herr Hmiss. split.
  - intros error Hfail.
    rewrite (smartFetch_live_failure host input init s error Hmiss Hfail).
    rewrite catch_without_storage by (simpl; rewrite Hreal, Herr; reflexivity).
    split_and!; reflexivity.
  - intros response data Hlive Hacc.
    destruct (try_live_success_stored host input init s response data Hmiss Hlive Hreal Hacc)
      as (record & Hrec & E).
    simpl in E. exists record. unfold smartFetch. rewrite E.
    destruct (write_failure (world s)) as [e|] eqn:Hw.
    + rewrite catch_without_storage by (simpl; rewrite Hreal, Herr; reflexivity).
      simpl. unfold getStoredResponse. simpl.
      split_and!; [apply lookup_insert_eq | exact Hrec | discriminate].
    + simpl. unfold getStoredResponse, after_save. simpl. rewrite Hw.
      split_and!; [apply lookup_insert_eq | exact Hrec | intros _; split; reflexivity].
Qed.

Lemma error_gating_witness :
  (fst (smartFetch Sample.host Sample.missing Sample.GET (Sample.sys false true false))
   = RejectedView (failure_view Sample.error_404)
   /\ mocker (snd (smartFetch Sample.host Sample.missing Sample.GET
                     (Sample.sys false true false)))
      = mocker (Sample.sys false true false)
   /\ disk (world (snd (smartFetch Sample.host Sample.missing Sample.GET
                          (Sample.sys false true false)))) = NoFile)
  /\ exists record,
       getStoredResponse Sample.host "https://x/y" "GET" JsUndefined
         (mocker (snd (smartFetch Sample.host Sample.xy Sample.GET
                         (Sample.sys false true false)))) = Some record
       /\ StoredResponse.response record = success_payload (JsObject [("a", JsNumber 1)])
       /\ fst (smartFetch Sample.host Sample.xy Sample.GET (Sample.sys false true false))
          = Fulfilled (live_view Sample.response_a1 (JsObject [("a", JsNumber 1)]))
       /\ disk (world (snd (smartFetch Sample.host Sample.xy Sample.GET
                              (Sample.sys false true false))))
          = Document (storedResponses
                        (state (mocker (snd (smartFetch Sample.host Sample.xy Sample.GET
                                               (Sample.sys false true false)))))).
Proof.
  split.
  - apply (error_gating Sample.host Sample.missing Sample.GET (Sample.sys false true false)
             eq_refl eq_refl eq_refl).
    apply (HttpStatusFailure _ _ _ _ Sample.response_404); reflexivity.
  - destruct (error_gating Sample.host Sample.xy Sample.GET (Sample.sys false true false)
                eq_refl eq_refl eq_refl) as [_ Hsuccess].
    destruct (Hsuccess Sample.response_a1 (JsObject [("a", JsNumber 1)])
                (conj eq_refl (conj eq_refl eq_refl)) I)
      as (record & Hget & Hrec & Hwrite).
    destruct (Hwrite eq_refl) as [Hres Hdisk].
    exists record. split_and!; assumption.
Defined.

(* ===================================================================== *)
(** ** hashCode as a polynomial hash *)
(* ===================================================================== *)

Lemma to_int32_spec z : exists k, to_int32 z = z + k * 2 ^ 32.
Proof.
  unfold to_int32. exists (- ((z + 2 ^ 31) / 2 ^ 32)).
  pose proof (Z.div_mod (z + 2 ^ 31) (2 ^ 32) ltac:(lia)). lia.
Qed.

Lemma to_int32_congr a b k : a = b + k * 2 ^ 32 -> to_int32 a = to_int32 b.
Proof.
  intros ->. unfold to_int32.
  replace (b + k * 2 ^ 32 + 2 ^ 31) with (b + 2 ^ 31 + k * 2 ^ 32) by lia.
  rewrite Z.mod_add by lia. reflexivity.
Qed.

(** One turn of the loop: [(hash << 5) - hash + char] wrapped to 32 bits is
    [31 * hash + char] wrapped to 32 bits. *)
Lemma hashCode_loop_step c rest hash :
  hashCode_loop (String c rest) hash
  = hashCode_loop rest (to_int32 (31 * hash + charCode c)).
Proof.
  simpl. rewrite Z.land_diag. f_equal.
  rewrite Z.shiftl_mul_pow2 by lia.
  destruct (to_int32_spec hash) as [k1 Hk1].
  destruct (to_int32_spec (to_int32 hash * 2 ^ 5)) as [k2 Hk2].
  apply (to_int32_congr _ _ (32 * k1 + k2)). lia.
Qed.

Lemma hashCode_loop_app a b hash :
  hashCode_loop (a +:+ b) hash = hashCode_loop b (hashCode_loop a hash).
Proof.
  revert hash. induction a as [|c a IH]; intros hash; [reflexivity|].
  change (String c a +:+ b) with (String c (a +:+ b)).
  rewrite !hashCode_loop_step. apply IH.
Qed.

Lemma hashCode_as_loop str : hashCode str = hashCode_loop str 0.
Proof. destruct str; reflexivity. Qed.

(** The value returned is a signed 32-bit integer, whatever the string. *)
Theorem hashCode_is_int32 str : - 2 ^ 31 <= hashCode str < 2 ^ 31.
Proof. apply hashCode_int32. Qed.

(** Appending one character [c] to a string multiplies its hash by 31, adds
    the character's code and wraps to 32 bits. *)
Theorem hashCode_snoc str c :
  hashCode (str +:+ String c EmptyString)
  = to_int32 (31 * hashCode str + charCode c).
Proof.
  rewrite !hashCode_as_loop, hashCode_loop_app, hashCode_loop_step. reflexivity.
Qed.

(** The hash is not injective: two strings that differ only by having [Aa]
    where the other has [BB] have the same hash. *)
Theorem hashCode_collision prefix suffix :
  hashCode (prefix +:+ "Aa" +:+ suffix) = hashCode (prefix +:+ "BB" +:+ suffix).
Proof.
  rewrite !hashCode_as_loop, !hashCode_loop_app. f_equal.
  generalize (hashCode_loop prefix 0). intros h.
  rewrite !hashCode_loop_step. simpl.
  destruct (to_int32_spec (31 * h + charCode "A")) as [k1 Hk1].
  destruct (to_int32_spec (31 * h + charCode "B")) as [k2 Hk2].
  apply (to_int32_congr _ _ (31 * (k1 - k2))).
  rewrite Hk1, Hk2. change (charCode "A") with 65. change (charCode "B") with 66.
  change (charCode "a") with 97. lia.
Qed.

(* ===================================================================== *)
(** ** What smartFetch uses and what it leaves alone *)
(* ===================================================================== *)

Ltac smartFetch_cases s :=
  destruct s as [[[storeReal storeError dd om] [im mk st]] w];
  unfold smartFetch, smartFetch_try, smartFetch_catch, cache_hit, mirrored in *;
  unfold_engine; simpl in *;
  destruct im, storeReal, storeError; simpl in *;
  repeat (case_match; simpl in *; simplify_eq); cbn in *.

(** smartFetch uses the live-call capability exactly once when it does not
    answer from the cache (mocking disabled, or no record under the key),
    and not at all when it does, however the call and the storing end. *)
Theorem smartFetch_live_call_count host input init s :
  live_calls (trace (world (snd (smartFetch host input init s))))
  = (live_calls (trace (world s))
     + match cache_hit host input init (mocker s) with Some _ => 0 | None => 1 end)%nat.
Proof.
  smartFetch_cases s; unfold live_calls; simpl; lia.
Qed.

(** smartFetch never changes the options, the mocking switch or the
    registry, and in the cache it changes at most the entry under the key of
    the request; the network, the clock and the writability of the file are
    not its to change. *)
Theorem smartFetch_frame host input init s :
  options (mocker (snd (smartFetch host input init s))) = options (mocker s)
  /\ isMocking (state (mocker (snd (smartFetch host input init s))))
     = isMocking (state (mocker s))
  /\ mocks (state (mocker (snd (smartFetch host input init s)))) = mocks (state (mocker s))
  /\ (forall k,
        k <> storage_key host (input_url input) (init_method init) (init_body init) ->
        storedResponses (state (mocker (snd (smartFetch host input init s)))) !! k
        = storedResponses (state (mocker s)) !! k)
  /\ write_failure (world (snd (smartFetch host input init s))) = write_failure (world s).
Proof.
  smartFetch_cases s; split_and!; try reflexivity; try congruence;
    intros k Hk; rewrite ?lookup_insert_ne by congruence; reflexivity.
Qed.

(** When the file can be written and mirrors the cache, it still mirrors
    the cache after smartFetch, however the promise settles. *)
Theorem smartFetch_keeps_mirror host input init s :
  write_failure (world s) = None ->
  mirrored s ->
  mirrored (snd (smartFetch host input init s)).
Proof.
  intros Hw Hm. smartFetch_cases s; try assumption; try reflexivity; congruence.
Qed.

(* ===================================================================== *)
(** ** How the promise of smartFetch settles *)
(* ===================================================================== *)

(** A promise of smartFetch that is fulfilled carries [ok = true]: it is
    either the view of the record found in the cache, or the view of a live
    response with a success status whose body parsed. A caller's test of
    [!response.ok] after [await] never holds. *)
Theorem smartFetch_fulfilled_ok host input init s r :
  fst (smartFetch host input init s) = Fulfilled r ->
  MockResponse.ok r = true
  /\ match cache_hit host input init (mocker s) with
     | Some storedResponse => r = stored_view host storedResponse
     | None =>
         exists response data,
           live_success (world s) input init response data
           /\ r = live_view response data
     end.
Proof.
  intros H. revert H. unfold live_success.
  smartFetch_cases s; intros Hres; simplify_eq; simpl;
    try (split; [reflexivity | reflexivity]);
    (split; [ destruct (Response.ok _); [reflexivity | discriminate]
            | eexists _, _; split_and!; try eassumption; try reflexivity;
              destruct (Response.ok _); [reflexivity | discriminate] ]).
Qed.

Lemma smartFetch_fulfilled_ok_witness :
  MockResponse.ok (live_view Sample.response_a1 (JsObject [("a", JsNumber 1)])) = true
  /\ match cache_hit Sample.host Sample.xy Sample.GET (mocker (Sample.sys false true true)) with
     | Some storedResponse =>
         live_view Sample.response_a1 (JsObject [("a", JsNumber 1)])
         = stored_view Sample.host storedResponse
     | None =>
         exists response data,
           live_success (world (Sample.sys false true true)) Sample.xy Sample.GET response data
           /\ live_view Sample.response_a1 (JsObject [("a", JsNumber 1)])
              = live_view response data
     end.
Proof.
  apply (smartFetch_fulfilled_ok Sample.host Sample.xy Sample.GET (Sample.sys false true true)).
  vm_compute. reflexivity.
Defined.

Lemma failure_view_shape error :
  MockResponse.ok (failure_view error) = false
  /\ (MockResponse.status (failure_view error) = 0
      \/ MockResponse.status (failure_view error) = 500)
  /\ MockResponse.headers (failure_view error) = Some ∅
  /\ MockResponse.clone (failure_view error)
     = Normal (JsonOnly (MockResponse.json (failure_view error)))
  /\ MockResponse.text (failure_view error)
     = Normal (MockResponse.statusText (failure_view error)).
Proof.
  split_and!; try reflexivity.
  destruct error as [e | v]; simpl; [|right; reflexivity].
  destruct (String.eqb (err_name e) "TypeError"); [left | right]; reflexivity.
Qed.

(** A response-shaped rejection of smartFetch never comes from the cache,
    and is always the view of one error: [ok] is false, the status is 0 or
    500, the headers are empty, [text()] is the status text, and [clone()]
    gives an object whose [json()] is the [json()] of the rejection. *)
Theorem smartFetch_rejected_view_shape host input init s v :
  fst (smartFetch host input init s) = RejectedView v ->
  cache_hit host input init (mocker s) = None
  /\ (exists error, v = failure_view error)
  /\ MockResponse.ok v = false
  /\ (MockResponse.status v = 0 \/ MockResponse.status v = 500)
  /\ MockResponse.headers v = Some ∅
  /\ MockResponse.clone v = Normal (JsonOnly (MockResponse.json v))
  /\ MockResponse.text v = Normal (MockResponse.statusText v).
Proof.
  intros H.
  assert (Hv : cache_hit host input init (mocker s) = None
               /\ exists error, v = failure_view error).
  { revert H. smartFetch_cases s; intros Hres; simplify_eq; split; eauto. }
  destruct Hv as (Hmiss & error & ->).
  split; [exact Hmiss|]. split; [eauto|]. apply failure_view_shape.
Qed.

Lemma smartFetch_rejected_view_shape_witness :
  cache_hit Sample.host Sample.missing Sample.GET (mocker (Sample.sys true true true)) = None
  /\ (exists error, failure_view Sample.error_404 = failure_view error)
  /\ MockResponse.ok (failure_view Sample.error_404) = false
  /\ (MockResponse.status (failure_view Sample.error_404) = 0
      \/ MockResponse.status (failure_view Sample.error_404) = 500)
  /\ MockResponse.headers (failure_view Sample.error_404) = Some ∅
  /\ MockResponse.clone (failure_view Sample.error_404)
     = Normal (JsonOnly (MockResponse.json (failure_view Sample.error_404)))
  /\ MockResponse.text (failure_view Sample.error_404)
     = Normal (MockResponse.statusText (failure_view Sample.error_404)).
Proof.
  apply (smartFetch_rejected_view_shape Sample.host Sample.missing Sample.GET
           (Sample.sys true true true)).
  vm_compute. reflexivity.
Defined.

(* ===================================================================== *)
(** ** Recording, then replaying *)
(* ===================================================================== *)

Lemma smartFetch_live_success_stored host input init s response data :
  storeRealResponses (options (mocker s)) = true ->
  cache_hit host input init (mocker s) = None ->
  live_success (world s) input init response data ->
  headers_accepted host init ->
  write_failure (world s) = None ->
  exists record,
    StoredResponse.response record = success_payload data
    /\ StoredResponse.headers record = Some (headersToRecord (Response.headers response))
    /\ smartFetch host input init s
       = (Fulfilled (live_view response data),
          {| mocker :=
               with_cache
                 (<[storage_key host (input_url input) (init_method init) (init_body init)
                    := record]> (storedResponses (state (mocker s)))) (mocker s);
             world :=
               after_save (EvFetch (input_url input) init)
                 (<[storage_key host (input_url input) (init_method init) (init_body init)
                    := record]> (storedResponses (state (mocker s)))) (world s) |}).
Proof.
  intros Hreal Hmiss (Hn & Hok & Hj) Hacc Hw.
  destruct (stored_request_accepted host input init
              (logged (EvFetch (input_url input) init) s) Hacc) as (request & Hreq & _).
  exists {| StoredResponse.response := success_payload data;
            StoredResponse.timestamp := clock (world s);
            StoredResponse.headers := Some (headersToRecord (Response.headers response));
            StoredResponse.request := request |}.
  split; [reflexivity|]. split; [reflexivity|].
  revert Hmiss. unfold smartFetch, cache_hit, smartFetch_try, bind at 1, get_mocker.
  simpl. intros ->.
  unfold fetchWithAgent, log, bind at 1 2 3 4 5, get_world, set_world, await. simpl.
  rewrite Hn, Hok. simpl. rewrite Hj.
  unfold bind at 1 2, get_mocker. simpl. rewrite Hreal.
  unfold bind at 1 2 3, get_world. simpl. unfold logged in Hreq. rewrite Hreq.
  destruct s as [m w]. simpl in *. unfold_engine. rewrite Hreal.
  unfold with_cache, with_state, after_save. simpl. rewrite !Hw. reflexivity.
Qed.

(** Record, then replay. After a successful live call recorded with
    real-response storage on (the write succeeding), enabling mocking and
    fetching the same request again is fulfilled from the cache without a
    live call. [json()] of the replay is not the data the live response
    gave but the stored wrapper [{data, error: null, success: true}] around
    it; the headers are those of the live response. *)
Theorem record_then_replay host input init s response data :
  storeRealResponses (options (mocker s)) = true ->
  cache_hit host input init (mocker s) = None ->
  live_success (world s) input init response data ->
  headers_accepted host init ->
  write_failure (world s) = None ->
  fst (smartFetch host input init s) = Fulfilled (live_view response data)
  /\ MockResponse.json (live_view response data) = Normal data
  /\ exists r,
       smartFetch host input init (mocking_enabled (snd (smartFetch host input init s)))
       = (Fulfilled r, mocking_enabled (snd (smartFetch host input init s)))
       /\ MockResponse.json r = Normal (success_payload data)
       /\ MockResponse.headers r = Some (headersToRecord (Response.headers response))
       /\ MockResponse.status r = 200.
Proof.
  intros Hreal Hmiss Hlive Hacc Hw.
  destruct (smartFetch_live_success_stored host input init s response data
              Hreal Hmiss Hlive Hacc Hw) as (record & Hrec & Hhd & E).
  rewrite E. simpl. split; [reflexivity|]. split; [reflexivity|].
  exists (stored_view host record). split.
  - apply smartFetch_cache_hit. unfold cache_hit, mocking_enabled, getStoredResponse. simpl.
    apply lookup_insert_eq.
  - simpl. rewrite Hrec, Hhd. split_and!; reflexivity.
Qed.

Lemma record_then_replay_witness :
  fst (smartFetch Sample.host Sample.xy Sample.GET (Sample.sys false true true))
  = Fulfilled (live_view Sample.response_a1 (JsObject [("a", JsNumber 1)]))
  /\ MockResponse.json (live_view Sample.response_a1 (JsObject [("a", JsNumber 1)]))
     = Normal (JsObject [("a", JsNumber 1)])
  /\ exists r,
       smartFetch Sample.host Sample.xy Sample.GET Sample.replay = (Fulfilled r, Sample.replay)
       /\ MockResponse.json r = Normal (success_payload (JsObject [("a", JsNumber 1)]))
       /\ MockResponse.headers r
          = Some (headersToRecord (Response.headers Sample.response_a1))
       /\ MockResponse.status r = 200.
Proof.
  apply (record_then_replay Sample.host Sample.xy Sample.GET (Sample.sys false true true)
           Sample.response_a1 (JsObject [("a", JsNumber 1)])).
  - reflexivity.
  - reflexivity.
  - split_and!; reflexivity.
  - exact I.
  - reflexivity.
Defined.

(** A failing live call with both storage switches on puts a record holding
    the failure under the request's key before it throws; when the write
    succeeds the promise is rejected with the failure view and the file
    holds the whole cache. Replayed with mocking enabled, the record comes
    back fulfilled, [json()] being the [json()] of the failure thrown. *)
Theorem failure_recorded_then_replayed host input init s error :
  storeRealResponses (options (mocker s)) = true ->
  storeErrorResponses (options (mocker s)) = true ->
  cache_hit host input init (mocker s) = None ->
  live_failure host (world s) input init error ->
  headers_accepted host init ->
  (exists record,
     getStoredResponse host (input_url input) (init_method init) (init_body init)
       (mocker (snd (smartFetch host input init s))) = Some record
     /\ StoredResponse.response record = failure_payload error
     /\ smartFetch host input init (mocking_enabled (snd (smartFetch host input init s)))
        = (Fulfilled (stored_view host record),
           mocking_enabled (snd (smartFetch host input init s)))
     /\ MockResponse.json (stored_view host record)
        = MockResponse.json (failure_view error))
  /\ (write_failure (world s) = None ->
      fst (smartFetch host input init s) = RejectedView (failure_view error)
      /\ mirrored (snd (smartFetch host input init s))).
Proof.
  intros Hreal Herr Hmiss Hfail Hacc.
  rewrite (smartFetch_live_failure host input init s error Hmiss Hfail).
  set (s1 := logged (EvFetch (input_url input) init) s).
  assert (Hflags : storeRealResponses (options (mocker s1))
                   && storeErrorResponses (options (mocker s1)) = true)
    by (simpl; rewrite Hreal, Herr; reflexivity).
  destruct (catch_with_storage host input init s1 error Hflags Hacc) as (record & Hrec & E).
  simpl in E. rewrite E. split.
  - exists record.
    assert (Hget : getStoredResponse host (input_url input) (init_method init) (init_body init)
              (with_cache
                 (<[storage_key host (input_url input) (init_method init) (init_body init)
                    := record]> (storedResponses (state (mocker s)))) (mocker s))
            = Some record)
      by (unfold getStoredResponse; simpl; apply lookup_insert_eq).
    destruct (write_failure (world s)); simpl.
    + split; [exact Hget|]. split; [exact Hrec|]. split.
      * apply smartFetch_cache_hit. unfold cache_hit, mocking_enabled. simpl. exact Hget.
      * simpl. rewrite Hrec. reflexivity.
    + split; [exact Hget|]. split; [exact Hrec|]. split.
      * apply smartFetch_cache_hit. unfold cache_hit, mocking_enabled. simpl. exact Hget.
      * simpl. rewrite Hrec. reflexivity.
  - intros Hw. rewrite Hw. simpl. split; reflexivity.
Qed.

Lemma failure_recorded_then_replayed_witness :
  (exists record,
     getStoredResponse Sample.host "https://x/missing" "GET" JsUndefined
       (mocker Sample.recorded_failure) = Some record
     /\ StoredResponse.response record = failure_payload Sample.error_404
     /\ smartFetch Sample.host Sample.missing Sample.GET Sample.replay_failure
        = (Fulfilled (stored_view Sample.host record), Sample.replay_failure)
     /\ MockResponse.json (stored_view Sample.host record)
        = MockResponse.json (failure_view Sample.error_404))
  /\ (write_failure Sample.world0 = None ->
      fst (smartFetch Sample.host Sample.missing Sample.GET (Sample.sys false true true))
      = RejectedView (failure_view Sample.error_404)
      /\ mirrored Sample.recorded_failure).
Proof.
  apply (failure_recorded_then_replayed Sample.host Sample.missing Sample.GET
           (Sample.sys false true true) Sample.error_404).
  - reflexivity.
  - reflexivity.
  - reflexivity.
  - apply (HttpStatusFailure _ _ _ _ Sample.response_404); reflexivity.
  - exact I.
Defined.

(* ===================================================================== *)
(** ** When the file cannot be written *)
(* ===================================================================== *)



(* ===================================================================== *)
(** ** storage.ts and the load at start-up *)
(* ===================================================================== *)



(** [loadStoredResponses] never throws and never writes. The cache becomes
    the mapping of the file; it becomes empty when the file is missing or
    unparsable, or holds a boolean, a number, the empty string or the empty
    array; and it is kept as it was when the file holds [null], for which
    [Object.entries] throws and the [catch] only logs. The options, the
    mocking switch and the registry are kept. *)
Theorem loadStoredResponses_total (s : Sys) :
  fst (loadStoredResponses s) = Normal tt
  /\ storedResponses (state (mocker (snd (loadStoredResponses s))))
     = match disk (world s) with
       | Document m => m
       | EntrylessDocument JsonNull => storedResponses (state (mocker s))
       | EntrylessDocument (JsonBool _ | JsonNumber _ | JsonEmptyString | JsonEmptyArray)
       | NoFile | Unparsable => ∅
       end
  /\ disk (world (snd (loadStoredResponses s))) = disk (world s)
  /\ trace (world (snd (loadStoredResponses s))) = EvLoad :: trace (world s)
  /\ options (mocker (snd (loadStoredResponses s))) = options (mocker s)
  /\ isMocking (state (mocker (snd (loadStoredResponses s)))) = isMocking (state (mocker s))
  /\ mocks (state (mocker (snd (loadStoredResponses s)))) = mocks (state (mocker s)).
Proof.
  destruct s as [[o st] w].
  unfold loadStoredResponses, try_catch, loadResponses, map_of_entries. unfold_engine.
  destruct (disk w) as [| | m | []]; simpl; split_and!; reflexivity.
Qed.

(** The file holds [null]: the load completes and the cache keeps the
    record it held. *)
Example load_null_file_keeps_cache :
  fst (loadStoredResponses Sample.recorded_null_file) = Normal tt
  /\ storedResponses (state (mocker (snd (loadStoredResponses Sample.recorded_null_file))))
     = {[ "https://x/y_GET_3938" := Sample.record_a1 ]}.
Proof. split; vm_compute; reflexivity. Qed.




(** Clearing twice is clearing once, as far as the instance and the file
    go; and after a clear no lookup finds a record. *)
Theorem clearStoredResponses_idempotent host (s : Sys) :
  mocker (snd (clearStoredResponses (snd (clearStoredResponses s))))
  = mocker (snd (clearStoredResponses s))
  /\ disk (world (snd (clearStoredResponses (snd (clearStoredResponses s)))))
     = disk (world (snd (clearStoredResponses s)))
  /\ forall url method requestBody,
       getStoredResponse host url method requestBody (mocker (snd (clearStoredResponses s)))
       = None.
Proof.
  destruct s as [[[storeReal storeError dd om] st] w].
  unfold clearStoredResponses, getStoredResponse. unfold_engine.
  destruct storeReal; simpl.
  - destruct (write_failure w) eqn:Hw; simpl; rewrite ?Hw; simpl;
      split_and!; try reflexivity; intros; apply lookup_empty.
  - split_and!; try reflexivity; intros; apply lookup_empty.
Qed.

(* ===================================================================== *)
(** ** The registry over a run of registrations *)
(* ===================================================================== *)

Lemma same_target_true config m :
  same_target config m = true <-> target m = target config.
Proof.
  unfold same_target, target. rewrite andb_true_iff, !String.eqb_eq.
  split; [intros [-> ->]; reflexivity | intros H; injection H; auto].
Qed.

Lemma exists_same_target_false config (registry : list MockConfig.t) :
  existsb (same_target config) registry = false -> target config ∉ target <$> registry.
Proof.
  induction registry as [|m registry IH]; simpl; intros H.
  - apply not_elem_of_nil.
  - apply orb_false_iff in H as [Hm Hrest]. rewrite not_elem_of_cons. split.
    + intros Heq. symmetry in Heq. apply same_target_true in Heq. congruence.
    + apply IH. exact Hrest.
Qed.

Lemma addMock_cases config m :
  (existsb (same_target config) (mocks (state m)) = true /\ addMock config m = m)
  \/ (existsb (same_target config) (mocks (state m)) = false
      /\ options (addMock config m) = options m
      /\ mocks (state (addMock config m))
         = (mocks (state m) ++ [registered_entry (defaultDelay (options m)) config])%list).
Proof.
  unfold addMock. destruct (existsb (same_target config) (mocks (state m))); simpl; auto.
Qed.

Lemma addMock_keeps_distinct config m :
  NoDup (target <$> mocks (state m)) -> NoDup (target <$> mocks (state (addMock config m))).
Proof.
  intros Hnd. destruct (addMock_cases config m) as [[_ ->] | (Hfresh & _ & ->)]; [exact Hnd|].
  rewrite fmap_app. apply NoDup_app. split; [exact Hnd|]. split.
  - intros x Hx Hin. simpl in Hin. apply list_elem_of_singleton in Hin. subst x.
    apply (exists_same_target_false _ _ Hfresh). exact Hx.
  - simpl. apply NoDup_singleton.
Qed.

Lemma register_all_options configs m : options (register_all configs m) = options m.
Proof.
  revert m. induction configs as [|c configs IH]; intros m; simpl; [reflexivity|].
  rewrite IH. destruct (addMock_cases c m) as [[_ ->] | (_ & Ho & _)]; [reflexivity | exact Ho].
Qed.

(** Whatever configurations are registered on a new instance, and in
    whatever order, the registry never holds two entries for the same
    (endpoint, method) pair. *)
Theorem registry_targets_distinct opts env (configs : list MockConfig.t) :
  NoDup (target <$> mocks (state (register_all configs (new_ApiMocker opts env)))).
Proof.
  assert (H : forall m, NoDup (target <$> mocks (state m)) ->
                        NoDup (target <$> mocks (state (register_all configs m)))).
  { induction configs as [|c configs IH]; intros m Hnd; simpl; [exact Hnd|].
    apply IH, addMock_keeps_distinct, Hnd. }
  apply H. simpl. apply NoDup_nil_2.
Qed.

(** Every entry of the registry comes from one of the configurations
    registered, with its payload, and always has a delay: the one
    configured, or the instance's default delay when none was. *)
Theorem registry_entries_resolved opts env (configs : list MockConfig.t) :
  Forall
    (fun entry =>
       exists config,
         config ∈ configs
         /\ entry = registered_entry (defaultDelay (options (new_ApiMocker opts env))) config)
    (mocks (state (register_all configs (new_ApiMocker opts env)))).
Proof.
  assert (H : forall (dflt : Z) (done_ : list MockConfig.t) m,
             defaultDelay (options m) = dflt ->
             Forall (fun entry => exists config,
                       config ∈ done_ /\ entry = registered_entry dflt config)
               (mocks (state m)) ->
             Forall (fun entry => exists config,
                       config ∈ (done_ ++ configs)%list
                       /\ entry = registered_entry dflt config)
               (mocks (state (register_all configs m)))).
  { induction configs as [|c configs IH]; intros dflt done_ m Hd Hall; simpl.
    - rewrite app_nil_r. exact Hall.
    - replace (done_ ++ c :: configs)%list with ((done_ ++ [c]) ++ configs)%list
        by (rewrite <- app_assoc; reflexivity).
      apply IH.
      + destruct (addMock_cases c m) as [[_ ->] | (_ & Ho & _)]; [exact Hd|].
        rewrite Ho. exact Hd.
      + assert (Hall' : Forall (fun entry => exists config,
                           config ∈ (done_ ++ [c])%list
                           /\ entry = registered_entry dflt config) (mocks (state m))).
        { eapply Forall_impl; [exact Hall|]. intros e (c0 & Hin & He).
          exists c0. split; [apply elem_of_app; left; exact Hin | exact He]. }
        destruct (addMock_cases c m) as [[_ ->] | (_ & _ & ->)]; [exact Hall'|].
        apply Forall_app. split; [exact Hall'|].
        apply Forall_singleton. exists c. split.
        * apply elem_of_app. right. apply list_elem_of_singleton. reflexivity.
        * rewrite Hd. reflexivity. }
  apply (H _ [] (new_ApiMocker opts env) eq_refl). simpl. apply Forall_nil_2.
Qed.

(* ===================================================================== *)
(** ** headersToRecord *)
(* ===================================================================== *)






(* ===================================================================== *)
(** ** Bodies that share a key *)
(* ===================================================================== *)

Lemma storage_key_falsy host url method b1 b2 :
  truthy b1 = false -> truthy b2 = false ->
  storage_key host url method b1 = storage_key host url method b2.
Proof. unfold storage_key, js_or. intros -> ->. reflexivity. Qed.

(** A request whose body is absent, [null], the empty string, [0] or
    [false] has the key of the same request with any other such body: with
    mocking enabled, a record stored for one is served for the other. *)
Theorem falsy_bodies_share_record host input init1 init2 s storedResponse :
  init_method init1 = init_method init2 ->
  truthy (init_body init1) = false ->
  truthy (init_body init2) = false ->
  cache_hit host input init1 (mocker s) = Some storedResponse ->
  smartFetch host input init2 s = (Fulfilled (stored_view host storedResponse), s).
Proof.
  intros Hm H1 H2 Hhit. apply smartFetch_cache_hit. rewrite <- Hhit.
  unfold cache_hit, getStoredResponse. rewrite Hm.
  rewrite (storage_key_falsy host (input_url input) (init_method init2) _ _ H1 H2).
  reflexivity.
Qed.

Lemma falsy_bodies_share_record_witness :
  smartFetch Sample.host Sample.xy Sample.GET_empty_body Sample.replay
  = (Fulfilled (stored_view Sample.host Sample.record_a1), Sample.replay).
Proof.
  apply (falsy_bodies_share_record Sample.host Sample.xy Sample.GET Sample.GET_empty_body
           Sample.replay Sample.record_a1).
  - reflexivity.
  - reflexivity.
  - reflexivity.
  - vm_compute. reflexivity.
Defined.

(* ===================================================================== *)
(** ** The capabilities smartFetch uses *)
(* ===================================================================== *)

(** smartFetch only ever fetches and saves: it never loads or clears the
    file, and it saves only when real-response storage is on. *)
Theorem smartFetch_events host input init s :
  exists events,
    trace (world (snd (smartFetch host input init s))) = (events ++ trace (world s))%list
    /\ Forall (fun e => match e with
                        | EvFetch _ _ => True
                        | EvSave _ => storeRealResponses (options (mocker s)) = true
                        | EvLoad | EvClear => False
                        end) events.
Proof.
  smartFetch_cases s;
    lazymatch goal with
    | |- exists _, ?a :: ?b :: ?c :: _ = _ /\ _ => exists [a; b; c]
    | |- exists _, ?a :: ?b :: _ = _ /\ _ => exists [a; b]
    | |- exists _, ?a :: _ = _ /\ _ => exists [a]
    | |- _ => exists []
    end; (split; [reflexivity | repeat constructor]).
Qed.

Lemma smartFetch_keeps_mirror_witness :
  mirrored (snd (smartFetch Sample.host Sample.missing Sample.GET Sample.recorded)).
Proof.
  apply (smartFetch_keeps_mirror Sample.host Sample.missing Sample.GET Sample.recorded).
  - reflexivity.
  - unfold mirrored. vm_compute. reflexivity.
Defined.

Lemma smartFetch_storage_off_frame_witness :
  mocker (snd (smartFetch Sample.host Sample.missing Sample.GET Sample.storage_switched_off))
  = mocker Sample.storage_switched_off
  /\ disk (world (snd (smartFetch Sample.host Sample.missing Sample.GET
                         Sample.storage_switched_off)))
     = disk (world Sample.storage_switched_off).
Proof.
  apply (smartFetch_storage_off_frame Sample.host Sample.missing Sample.GET
           Sample.storage_switched_off).
  reflexivity.
Defined.
